(** * Budget dashboard (app2.py): ingestion and normalisation pipeline

    A shallow embedding of the single script [src/app2.py].  The script
    reads an uploaded CSV file with pandas, derives three columns
    ([_date], [_amount], [_category]), filters the frame by a date range
    and a set of categories, and shows KPIs, two grouped sums and a CSV
    export of the filtered frame.

    Modelling choices, stated once:
    - a frame is a list of column names and a list of labelled rows; a
      cell is missing ([NaN], which also stands for NaT and None), text,
      a timestamp or a number;
    - the cells of a decoded file are text or missing: the column types
      that [pd.read_csv] infers are not modelled, a number read from the
      file stands as its text;
    - timestamps are nanoseconds since the epoch, as in datetime64[ns];
      comparing a datetime64 column with a [datetime.date] raises, as
      pandas does;
    - amounts are exact rationals in the pipeline; what is stated about
      sums is which amounts a sum adds, and the module [Float64] runs
      lines 143 and 187 on binary64 numbers, where the order of the
      additions shows;
    - the pandas entry points whose behaviour is not fixed by the script
      (CSV tokenising per encoding, flexible date parsing, numeric
      parsing, text rendering of timestamps and floats) and the clock are
      parameters of the pipeline;
    - a Streamlit run is a function from the widget values of one session
      to an outcome: stopped with a message, crashed with an uncaught
      exception, or a loaded dashboard. *)

From Stdlib Require Import ZArith QArith List String Ascii Bool Lia.
From Stdlib Require Strings.Byte.
From Stdlib Require Import Sorted Permutation.
From Stdlib Require Floats.
Import ListNotations.

Local Open Scope string_scope.
Local Open Scope list_scope.
Local Open Scope Z_scope.

(** ** Exceptions as [option] *)

Notation "x <- e ;; k" :=
  (match e with Some x => k | None => None end)
  (at level 61, e at next level, right associativity).

(** ** Text helpers *)

Definition is_digit (c : ascii) : bool :=
  (48 <=? nat_of_ascii c)%nat && (nat_of_ascii c <=? 57)%nat.

Definition digit (n : Z) : ascii :=
  match n mod 10 with
  | 0 => "0" | 1 => "1" | 2 => "2" | 3 => "3" | 4 => "4"
  | 5 => "5" | 6 => "6" | 7 => "7" | 8 => "8" | _ => "9"
  end%char.

Fixpoint digits_acc (fuel : nat) (n : Z) (acc : string) : string :=
  match fuel with
  | O => acc
  | S f =>
      let acc' := String (digit n) acc in
      if n <? 10 then acc' else digits_acc f (n / 10) acc'
  end.

(** Decimal rendering of a non-negative integer. *)
Definition decimal (n : Z) : string :=
  digits_acc (S (Z.to_nat (Z.log2_up n))) n "".

(** Left padding with zeros up to [w] characters. *)
Definition zfill (w : nat) (s : string) : string :=
  (String.concat "" (repeat "0" (w - String.length s)) ++ s)%string.

Fixpoint last_char (s : string) : option ascii :=
  match s with
  | EmptyString => None
  | String c EmptyString => Some c
  | String _ s' => last_char s'
  end.

(** [str.replace(",", "")] *)
Fixpoint remove_commas (s : string) : string :=
  match s with
  | EmptyString => EmptyString
  | String c s' =>
      if Ascii.eqb c ","%char then remove_commas s'
      else String c (remove_commas s')
  end.

(** ** Calendar dates and timestamps *)

Record date := mkdate { year : Z; month : Z; day : Z }.

(** A pandas Timestamp: nanoseconds since 1970-01-01T00:00. *)
Definition timestamp := Z.

Definition ns_per_day : Z := 86400 * 1000000000.

(** Days since the epoch of a proleptic Gregorian date. *)
Definition days_from_civil (d : date) : Z :=
  let y := if month d <=? 2 then year d - 1 else year d in
  let era := y / 400 in
  let yoe := y - era * 400 in
  let mp := (month d + 9) mod 12 in
  let doy := (153 * mp + 2) / 5 + day d - 1 in
  let doe := yoe * 365 + yoe / 4 - yoe / 100 + doy in
  era * 146097 + doe - 719468.

Definition civil_from_days (z : Z) : date :=
  let z := z + 719468 in
  let era := z / 146097 in
  let doe := z - era * 146097 in
  let yoe := (doe - doe / 1460 + doe / 36524 - doe / 146096) / 365 in
  let y := yoe + era * 400 in
  let doy := doe - (365 * yoe + yoe / 4 - yoe / 100) in
  let mp := (5 * doy + 2) / 153 in
  let d := doy - (153 * mp + 2) / 5 + 1 in
  let m := if mp <? 10 then mp + 3 else mp - 9 in
  mkdate (if m <=? 2 then y + 1 else y) m d.

Definition date_of (t : timestamp) : date := civil_from_days (t / ns_per_day).

(** [date.replace(month=1, day=1)] *)
Definition replace_month_day (d : date) (m dd : Z) : date :=
  mkdate (year d) m dd.

Definition two_digits (n : Z) : string :=
  String (digit (n / 10)) (String (digit n) "").

(** [to_period("M").astype(str)] on one timestamp: "YYYY-MM". *)
Definition period_month_str (t : timestamp) : string :=
  let d := date_of t in
  (zfill 4 (decimal (year d)) ++ "-" ++ two_digits (month d))%string.

(** ** Cells, rows and frames *)

Inductive value :=
| NaN
| Str (s : string)
| Ts (t : timestamp)
| Num (q : Q).

Record row := mkrow { label : nat; cells : list value }.

Record DataFrame := mkframe { columns : list string; rows : list row }.

Definition isna (v : value) : bool :=
  match v with NaN => true | _ => false end.

Fixpoint index_of (c : string) (cols : list string) : option nat :=
  match cols with
  | [] => None
  | c' :: cs =>
      if String.eqb c c' then Some O else option_map S (index_of c cs)
  end.

(** Rows shorter than the header read as missing on the right. *)
Definition pad (w : nat) (l : list value) : list value :=
  firstn w l ++ repeat NaN (w - List.length l).

Fixpoint update (p : nat) (v : value) (l : list value) : list value :=
  match l, p with
  | [], _ => []
  | _ :: t, O => v :: t
  | h :: t, S p' => h :: update p' v t
  end.

Definition cell_at (p : nat) (r : row) : value := nth p (cells r) NaN.

(** [df[c]]: the column as a list, [None] for KeyError. *)
Definition getitem (c : string) (df : DataFrame) : option (list value) :=
  option_map (fun p => map (cell_at p) (rows df)) (index_of c (columns df)).

(** Position-wise alignment of a new column with the rows; a row without
    a partner receives a missing value. *)
Fixpoint assign (f : value -> list value -> list value)
    (rs : list row) (vals : list value) : list row :=
  match rs with
  | [] => []
  | r :: rs' =>
      mkrow (label r) (f (hd NaN vals) (cells r)) :: assign f rs' (tl vals)
  end.

(** [df[c] = vals]: overwrite the column when the name exists, append it
    on the right otherwise. *)
Definition setitem (c : string) (vals : list value) (df : DataFrame)
  : DataFrame :=
  let w := List.length (columns df) in
  match index_of c (columns df) with
  | Some p =>
      mkframe (columns df)
        (assign (fun v cs => update p v (pad w cs)) (rows df) vals)
  | None =>
      mkframe (columns df ++ [c])
        (assign (fun v cs => pad w cs ++ [v]) (rows df) vals)
  end.

(** [df[c] = scalar] broadcasts the scalar over the index. *)
Definition setitem_scalar (c : string) (v : value) (df : DataFrame)
  : DataFrame :=
  setitem c (repeat v (List.length (rows df))) df.

(** [df[mask]] with a boolean column. *)
Fixpoint select (mask : list bool) (rs : list row) : list row :=
  match rs, mask with
  | r :: rs', b :: mask' =>
      if b then r :: select mask' rs' else select mask' rs'
  | _, _ => []
  end.

Definition getitem_mask (mask : list bool) (df : DataFrame) : DataFrame :=
  mkframe (columns df) (select mask (rows df)).

(** [df.empty]: some axis has length zero. *)
Definition empty (df : DataFrame) : bool :=
  match columns df, rows df with
  | [], _ => true
  | _, [] => true
  | _, _ => false
  end.

(** ** The delimited-text layer *)

Inductive encoding := DefaultEncoding | Utf8Sig | Latin1.

(** Tokenised delimited text: the header line and the records, each a
    list of fields. *)
Record csv := mkcsv { header : list string; records : list (list string) }.

(** What the script takes from its libraries and from the clock:
    - [tokenize e b]: [pd.read_csv] decoding the bytes [b] with encoding
      [e] and splitting them in fields, [None] when it raises;
    - [handle_after e b]: where that call leaves the read position;
    - [to_datetime col v]: [pd.to_datetime(col, errors="coerce")] at the
      cell [v] of the column [col] (the format is inferred per column),
      [None] for NaT;
    - [to_numeric s]: [pd.to_numeric(..., errors="coerce")] on one text,
      [None] for NaN;
    - [repr_ts], [repr_float]: the text of a timestamp and of a float;
    - [today]: [date.today()]. *)
Record Runtime := mkRuntime {
  tokenize : encoding -> list Byte.byte -> option csv;
  handle_after : encoding -> list Byte.byte -> nat;
  to_datetime : list value -> value -> option timestamp;
  to_numeric : string -> option Q;
  repr_ts : timestamp -> string;
  repr_float : Q -> string;
  today : date
}.

(** The default missing-value markers of [pd.read_csv]. *)
Definition na_values : list string :=
  [""; "#N/A"; "#N/A N/A"; "#NA"; "-1.#IND"; "-1.#QNAN"; "-NaN"; "-nan";
   "1.#IND"; "1.#QNAN"; "<NA>"; "N/A"; "NA"; "NULL"; "NaN"; "None";
   "n/a"; "nan"; "null"].

Definition is_na_text (s : string) : bool :=
  existsb (String.eqb s) na_values.

Definition read_field (s : string) : value :=
  if is_na_text s then NaN else Str s.

Fixpoint number_rows (i w : nat) (recs : list (list string)) : list row :=
  match recs with
  | [] => []
  | r :: rs => mkrow i (pad w (map read_field r)) :: number_rows (S i) w rs
  end.

(** The frame of a tokenised file, with a fresh range index.  A record
    shorter than the header is completed with missing cells; pandas
    refuses a longer one while tokenising. *)
Definition frame_of_csv (c : csv) : DataFrame :=
  mkframe (header c) (number_rows 0 (List.length (header c)) (records c)).

(** The uploaded file is a byte buffer with a read position. *)
Record file := mkfile { content : list Byte.byte; pos : nat }.

Definition seek0 (f : file) : file := mkfile (content f) 0.

(** [pd.read_csv(file, encoding=e)] reads from the current position and
    moves the handle. *)
Definition read_csv (R : Runtime) (e : encoding) (f : file)
  : option DataFrame * file :=
  let unread := skipn (pos f) (content f) in
  (option_map frame_of_csv (tokenize R e unread),
   mkfile (content f) (pos f + handle_after R e unread)).

(** app2.py, lines 74-83. *)
Definition safe_read (R : Runtime) (f : file) : option DataFrame :=
  match read_csv R DefaultEncoding f with
  | (Some df, _) => Some df
  | (None, f1) =>
      match read_csv R Utf8Sig (seek0 f1) with
      | (Some df, _) => Some df
      | (None, f2) => fst (read_csv R Latin1 (seek0 f2))
      end
  end.

(** ** Column operations *)

(** [.astype(str)] on one cell. *)
Definition astype_str (R : Runtime) (v : value) : string :=
  match v with
  | NaN => "nan"
  | Str s => s
  | Ts t => repr_ts R t
  | Num q => repr_float R q
  end.

Definition fillna (x : value) (v : value) : value :=
  match v with NaN => x | _ => v end.

Definition of_timestamp (o : option timestamp) : value :=
  match o with Some t => Ts t | None => NaN end.

Definition of_number (o : option Q) : value :=
  match o with Some q => Num q | None => NaN end.

(** [pd.to_datetime(col, errors="coerce")] *)
Definition to_datetime_col (R : Runtime) (col : list value) : list value :=
  map (fun v => of_timestamp (to_datetime R col v)) col.

(** [pd.to_numeric(col.astype(str).str.replace(",", ""), errors="coerce")] *)
Definition to_amount_col (R : Runtime) (col : list value) : list value :=
  map (fun v => of_number (to_numeric R (remove_commas (astype_str R v)))) col.

(** [col.fillna("Uncategorized").astype(str)] *)
Definition to_category_col (R : Runtime) (col : list value) : list value :=
  map (fun v => Str (astype_str R (fillna (Str "Uncategorized") v))) col.

Definition timestamps (col : list value) : list timestamp :=
  flat_map (fun v => match v with Ts t => [t] | _ => [] end) col.

Definition numbers (col : list value) : list Q :=
  flat_map (fun v => match v with Num q => [q] | _ => [] end) col.

(** [.min()] and [.max()] of a datetime column skip NaT and are NaT when
    nothing is left. *)
Definition series_min (col : list value) : value :=
  match timestamps col with
  | [] => NaN
  | t :: ts => Ts (fold_left Z.min ts t)
  end.

Definition series_max (col : list value) : value :=
  match timestamps col with
  | [] => NaN
  | t :: ts => Ts (fold_left Z.max ts t)
  end.

(** [.sum()], [.mean()], [.max()] of a float column skip NaN; the sum of
    nothing is 0, the mean and the maximum of nothing are NaN. *)
Definition series_sum (col : list value) : Q :=
  fold_left Qplus (numbers col) 0%Q.

Definition series_mean (col : list value) : value :=
  match numbers col with
  | [] => NaN
  | qs => Num (series_sum col / inject_Z (Z.of_nat (List.length qs)))%Q
  end.

Definition qmax (a b : Q) : Q := if Qle_bool a b then b else a.

Definition amount_max (col : list value) : value :=
  match numbers col with
  | [] => NaN
  | q :: qs => Num (fold_left qmax qs q)
  end.

(** The right operand of a comparison with a datetime64 column. *)
Inductive scalar :=
| PyDate (d : date)              (* datetime.date *)
| PyTimestamp (t : timestamp).   (* pd.Timestamp, datetime.datetime *)

(** [col >= other] and [col <= other] on a datetime64 column.  pandas
    does not compare datetime64 with a [datetime.date]: the comparison
    raises TypeError, whatever the column holds.  Against a timestamp
    the comparison is cell by cell, and NaT compares false. *)
Definition ge_scalar (col : list value) (other : scalar)
  : option (list bool) :=
  match other with
  | PyDate _ => None
  | PyTimestamp t =>
      Some (map (fun v => match v with Ts x => t <=? x | _ => false end) col)
  end.

Definition le_scalar (col : list value) (other : scalar)
  : option (list bool) :=
  match other with
  | PyDate _ => None
  | PyTimestamp t =>
      Some (map (fun v => match v with Ts x => x <=? t | _ => false end) col)
  end.

(** [col.between(left, right)]: [(col >= left) & (col <= right)]. *)
Definition between (col : list value) (left right : scalar)
  : option (list bool) :=
  lmask <- ge_scalar col left ;;
  rmask <- le_scalar col right ;;
  Some (map (fun lr => fst lr && snd lr) (combine lmask rmask)).

Definition isin (vals : list string) (v : value) : bool :=
  match v with
  | Str s => existsb (String.eqb s) vals
  | _ => false
  end.

(** [.dt.to_period("M").astype(str)]: the [.dt] accessor raises on a
    column that holds anything but timestamps and NaT. *)
Fixpoint dt_to_period_str (col : list value) : option (list value) :=
  match col with
  | [] => Some []
  | v :: col' =>
      rest <- dt_to_period_str col' ;;
      match v with
      | Ts t => Some (Str (period_month_str t) :: rest)
      | NaN => Some (Str "NaT" :: rest)
      | _ => None
      end
  end.

(** ** Grouped sums *)

(** The result of [groupby(k)[v].sum()]: one entry per key, keys in
    ascending order. *)
Definition grouped := list (string * Q).

Fixpoint group_add (k : string) (x : Q) (g : grouped) : grouped :=
  match g with
  | [] => [(k, x)]
  | (k', y) :: g' =>
      match String.compare k k' with
      | Eq => (k', (y + x)%Q) :: g'
      | Lt => (k, x) :: g
      | Gt => (k', y) :: group_add k x g'
      end
  end.

(** A row with a missing key is left out; a missing amount adds nothing
    but its row still opens the group.  Both key columns of the script
    are produced by [astype(str)], so keys are text. *)
Definition group_step (g : grouped) (kv : value * value) : grouped :=
  match fst kv with
  | Str k => group_add k (match snd kv with Num q => q | _ => 0%Q end) g
  | _ => g
  end.

Definition groupby_sum (keys vals : list value) : grouped :=
  fold_left group_step (combine keys vals) [].

(** ** Lines 143 and 187 on binary64 numbers

    The cells of [_amount] are float64 in pandas.  The total of line 143
    adds the valid ones from 0 in row order (the order of numpy's sum
    below eight values); a group of line 187 adds its own with the
    compensated summation of pandas' [group_sum]. *)

Module Float64.

Import Floats.

(** A float64 column; [None] stands for NaN. *)
Definition column := list (option float).

(** [Series.sum()] *)
Definition series_sum (col : column) : float :=
  fold_left (fun acc x => match x with
                          | Some v => (acc + v)%float
                          | None => acc
                          end) col 0%float.

(** The running sum of one group and its compensation. *)
Record cell := mkcell { sumx : float; compensation : float }.

Definition kahan_add (a : cell) (val : float) : cell :=
  let y := (val - compensation a)%float in
  let t := (sumx a + y)%float in
  let c := (t - sumx a - y)%float in
  mkcell t (if PrimFloat.eqb c c then c else 0%float).

Definition observe (a : cell) (x : option float) : cell :=
  match x with
  | Some val => kahan_add a val
  | None => a
  end.

Fixpoint group_add (k : string) (x : option float)
    (g : list (string * cell)) : list (string * cell) :=
  match g with
  | [] => [(k, observe (mkcell 0 0) x)]
  | (k', a) :: g' =>
      match String.compare k k' with
      | Eq => (k', observe a x) :: g'
      | Lt => (k, observe (mkcell 0 0) x) :: g
      | Gt => (k', a) :: group_add k x g'
      end
  end.

(** [groupby(k)[v].sum()] with text keys. *)
Definition groupby_sum (keys : list string) (vals : column)
  : list (string * float) :=
  map (fun ka => (fst ka, sumx (snd ka)))
    (fold_left (fun g kx => group_add (fst kx) (snd kx) g)
       (combine keys vals) []).






End Float64.

(** ** Export *)

(** [to_csv] writes the empty text for a missing cell. *)
Definition to_field (R : Runtime) (v : value) : string :=
  match v with
  | NaN => ""
  | Str s => s
  | Ts t => repr_ts R t
  | Num q => repr_float R q
  end.

(** [df.to_csv(index=False)], as header and records. *)
Definition to_csv (R : Runtime) (df : DataFrame) : csv :=
  mkcsv (columns df)
    (map (fun r => map (to_field R) (pad (List.length (columns df)) (cells r)))
       (rows df)).

(** ** The script *)

(** The widget values of one run. *)
Record session := mksession {
  uploaded : option (list Byte.byte);
  date_col : string;
  amount_col : string;
  category_col : string;
  date_range : list date;
  categories : list string
}.

(** The messages shown right before [st.stop()]. *)
Inductive message :=
| PleaseUpload        (* line 86 *)
| CouldNotRead        (* line 92 *)
| SelectValidRange    (* line 127 *)
| NoRecordsFound.     (* line 139 *)

Record dashboard := mkdashboard {
  total : Q;
  avg : value;
  max_amt : value;
  tx_count : nat;
  cat_sum : grouped;
  trend : grouped;
  table : DataFrame;
  csv_data : csv
}.

Inductive outcome :=
| Stop (m : message)
| Uncaught
| Loaded (d : dashboard).

(** Lines 108-114: the three derived columns. *)
Definition normalize (R : Runtime) (dc ac cc : string) (df : DataFrame)
  : option DataFrame :=
  d <- getitem dc df ;;
  let df1 := setitem "_date" (to_datetime_col R d) df in
  a <- getitem ac df1 ;;
  let df2 := setitem "_amount" (to_amount_col R a) df1 in
  if negb (String.eqb cc "(none)") then
    c <- getitem cc df2 ;;
    Some (setitem "_category" (to_category_col R c) df2)
  else
    Some (setitem_scalar "_category" (Str "Uncategorized") df2).

(** An end of the range offered by the date picker: a value of the
    [_date] column or a calendar date. *)
Inductive endpoint :=
| OfColumn (v : value)
| OfCalendar (d : date).

(** Lines 117-124: the default value of the date picker. *)
Definition default_range (R : Runtime) (df : DataFrame)
  : option (endpoint * endpoint) :=
  d <- getitem "_date" df ;;
  let min_d := series_min d in
  let max_d := series_max d in
  if isna min_d then
    Some (OfCalendar (replace_month_day (today R) 1 1), OfCalendar (today R))
  else
    Some (OfColumn min_d, OfColumn max_d).

(** Lines 134-136.  [start] and [end_] are the two [datetime.date]
    values of [st.sidebar.date_input]. *)
Definition apply_filters (start end_ : date) (cats : list string)
    (df : DataFrame) : option DataFrame :=
  d <- getitem "_date" df ;;
  mask <- between d (PyDate start) (PyDate end_) ;;
  let filtered := getitem_mask mask df in
  c <- getitem "_category" filtered ;;
  Some (getitem_mask (map (isin cats) c) filtered).

(** Lines 143-205: KPIs, grouped sums, the table and the export. *)
Definition summarize (R : Runtime) (filtered : DataFrame) : option dashboard :=
  amt <- getitem "_amount" filtered ;;
  let total := series_sum amt in
  let avg := series_mean amt in
  let max_amt := amount_max amt in
  let tx_count := List.length (rows filtered) in
  keys <- getitem "_category" filtered ;;
  let cat_sum := groupby_sum keys amt in
  d <- getitem "_date" filtered ;;
  ym <- dt_to_period_str d ;;
  let filtered := setitem "year_month" ym filtered in
  keys <- getitem "year_month" filtered ;;
  amt <- getitem "_amount" filtered ;;
  let trend := groupby_sum keys amt in
  Some (mkdashboard total avg max_amt tx_count cat_sum trend filtered
          (to_csv R filtered)).

(** The script from line 91 on, for a decoded frame. *)
Definition dashboard_of (R : Runtime) (s : session) (df : DataFrame)
  : outcome :=
  if empty df then Stop CouldNotRead else
  match normalize R (date_col s) (amount_col s) (category_col s) df with
  | None => Uncaught
  | Some df =>
      match default_range R df with
      | None => Uncaught
      | Some _ =>
          if negb (List.length (date_range s) =? 2)%nat then
            Stop SelectValidRange
          else
            match date_range s with
            | [start; end_] =>
                match apply_filters start end_ (categories s) df with
                | None => Uncaught
                | Some filtered =>
                    if empty filtered then Stop NoRecordsFound else
                    match summarize R filtered with
                    | None => Uncaught
                    | Some d => Loaded d
                    end
                end
            | _ => Uncaught
            end
      end
  end.

(** One run of the script. *)
Definition run (R : Runtime) (s : session) : outcome :=
  match uploaded s with
  | None => Stop PleaseUpload
  | Some bytes =>
      match safe_read R (mkfile bytes 0) with
      | None => Uncaught
      | Some df => dashboard_of R s df
      end
  end.

(** ** A concrete runtime for the examples

    A small instance of [Runtime], enough to run the script on plain
    inputs: comma-separated ASCII text without quoting, ISO dates
    "YYYY-MM-DD", decimal numbers "[+-]ddd[.ddd]". *)

Module Plain.

Fixpoint split (sep : ascii) (s : string) : list string :=
  match s with
  | EmptyString => [EmptyString]
  | String c s' =>
      if Ascii.eqb c sep then EmptyString :: split sep s'
      else match split sep s' with
           | [] => [String c EmptyString]
           | f :: fs => String c f :: fs
           end
  end.

Definition is_ascii_byte (b : Byte.byte) : bool :=
  (Byte.to_nat b <? 128)%nat.

(** The two UTF-8 decoders reject a byte above 127; Latin-1 decodes
    every byte.  An empty buffer has no columns to parse. *)
Definition tokenize (e : encoding) (b : list Byte.byte) : option csv :=
  let decodable :=
    match e with
    | Latin1 => true
    | _ => forallb is_ascii_byte b
    end in
  if decodable then
    match filter (fun l => negb (String.eqb l ""))
            (split "010"%char (string_of_list_byte b))
    with
    | [] => None
    | h :: ls => Some (mkcsv (split ","%char h) (map (split ","%char) ls))
    end
  else None.

Definition digit_value (c : ascii) : Z := Z.of_nat (nat_of_ascii c) - 48.

Fixpoint read_digits (s : string) (acc : Z) (n : nat) : Z * nat * string :=
  match s with
  | String c s' =>
      if is_digit c then read_digits s' (10 * acc + digit_value c) (S n)
      else (acc, n, s)
  | EmptyString => (acc, n, s)
  end.

(** Midnight of a calendar day. *)
Definition midnight (d : date) : timestamp := days_from_civil d * ns_per_day.

(** "YYYY-MM-DD" naming a day of the calendar. *)
Definition to_datetime (_ : list value) (v : value) : option timestamp :=
  match v with
  | Ts t => Some t
  | Str s =>
      let '(y, ny, r1) := read_digits s 0 0 in
      match r1 with
      | String "-" s2 =>
          let '(m, nm, r2) := read_digits s2 0 0 in
          match r2 with
          | String "-" s3 =>
              let '(d, nd, r3) := read_digits s3 0 0 in
              let dt := mkdate y m d in
              if (ny =? 4)%nat && (nm =? 2)%nat && (nd =? 2)%nat
                 && String.eqb r3 ""
                 && (1 <=? m) && (m <=? 12) && (1 <=? d)
                 && (day (date_of (midnight dt)) =? d)
                 && (month (date_of (midnight dt)) =? m)
              then Some (midnight dt) else None
          | _ => None
          end
      | _ => None
      end
  | _ => None
  end.

Definition to_numeric (s : string) : option Q :=
  let '(neg, body) :=
    match s with
    | String "-" s' => (true, s')
    | String "+" s' => (false, s')
    | _ => (false, s)
    end in
  let sign := fun q : Q => if neg then Qopp q else q in
  let '(ip, n, rest) := read_digits body 0 0 in
  if (n =? 0)%nat then None else
  match rest with
  | EmptyString => Some (sign (inject_Z ip))
  | String "." frac =>
      let '(fp, k, rest') := read_digits frac 0 0 in
      match rest' with
      | EmptyString =>
          if (k =? 0)%nat then None
          else Some (sign (Qred (Qmake (ip * 10 ^ Z.of_nat k + fp)
                                   (Z.to_pos (10 ^ Z.of_nat k)))))
      | _ => None
      end
  | _ => None
  end.

Definition iso_date (d : date) : string :=
  (zfill 4 (decimal (year d)) ++ "-" ++ two_digits (month d)
     ++ "-" ++ two_digits (day d))%string.

(** The date, followed by the time of day unless it is midnight. *)
Definition repr_ts (t : timestamp) : string :=
  let secs := (t mod ns_per_day) / 1000000000 in
  if secs =? 0 then iso_date (date_of t)
  else (iso_date (date_of t) ++ " " ++ two_digits (secs / 3600)
          ++ ":" ++ two_digits (secs / 60 mod 60)
          ++ ":" ++ two_digits (secs mod 60))%string.

Fixpoint frac_digits (fuel : nat) (r den : Z) : string :=
  match fuel with
  | O => EmptyString
  | S f =>
      String (digit (10 * r / den))
        (if (10 * r) mod den =? 0 then EmptyString
         else frac_digits f ((10 * r) mod den) den)
  end.

(** Integer part, point, and up to 17 decimals with at least one. *)
Definition repr_float (q : Q) : string :=
  let n := Z.abs (Qnum q) in
  let d := Zpos (Qden q) in
  let sign := if Qnum q <? 0 then "-" else "" in
  (sign ++ decimal (n / d) ++ "." ++ frac_digits 17 (n mod d) d)%string.

Definition runtime (today : date) : Runtime :=
  mkRuntime tokenize (fun _ b => List.length b) to_datetime to_numeric
    repr_ts repr_float today.

End Plain.

(** ** The scenario of the specification *)

Definition scenario_csv : csv :=
  mkcsv ["Date"; "Amount"; "Category"]
    [["2024-01-05"; "100"; "Food"];
     ["2024-02-10"; "abc"; "Food"];
     ["2024-03-01"; "50"; "Rent"]].

Definition scenario_bytes : list Byte.byte :=
  list_byte_of_string
    ("Date,Amount,Category" ++ String "010" "2024-01-05,100,Food"
       ++ String "010" "2024-02-10,abc,Food"
       ++ String "010" "2024-03-01,50,Rent" ++ String "010" "")%string.

Definition scenario_runtime : Runtime := Plain.runtime (mkdate 2026 11 3).

Definition scenario_session : session :=
  mksession (Some scenario_bytes) "Date" "Amount" "Category"
    [mkdate 2024 1 1; mkdate 2024 3 31] ["Food"; "Rent"].

Definition scenario_frame : DataFrame := frame_of_csv scenario_csv.

Definition scenario_normalized : DataFrame :=
  match normalize scenario_runtime "Date" "Amount" "Category" scenario_frame
  with
  | Some n => n
  | None => scenario_frame
  end.

(** The rows the specification expects the filter to keep in the
    scenario: all three. *)
Definition scenario_filtered : DataFrame :=
  getitem_mask [true; true; true] scenario_normalized.

Definition dashboard_or (f : DataFrame) (o : option dashboard) : dashboard :=
  match o with
  | Some d => d
  | None => mkdashboard 0 NaN NaN 0 [] [] f (mkcsv [] [])
  end.

Definition scenario_dashboard : dashboard :=
  dashboard_or scenario_filtered (summarize scenario_runtime scenario_filtered).

(** A second table: no amount parses, one date does not, one category is
    left empty. *)
Definition unparsed_csv : csv :=
  mkcsv ["When"; "What"; "Paid"]
    [["2024-01-05"; "Food"; "abc"];
     ["someday"; "Rent"; "12,x"];
     ["2024-01-20"; ""; "n/a"]].

Definition unparsed_normalized : DataFrame :=
  match normalize scenario_runtime "When" "Paid" "What"
          (frame_of_csv unparsed_csv)
  with
  | Some n => n
  | None => frame_of_csv unparsed_csv
  end.

(** Its two rows with a date. *)
Definition unparsed_filtered : DataFrame :=
  getitem_mask [true; false; true] unparsed_normalized.

Definition unparsed_dashboard : dashboard :=
  dashboard_or unparsed_filtered (summarize scenario_runtime unparsed_filtered).

(** All three rows of it, as lines 143-205 take them. *)
Definition unparsed_all_dashboard : dashboard :=
  dashboard_or unparsed_normalized
    (summarize scenario_runtime unparsed_normalized).

(** The scenario with one end of the range picked only. *)
Definition one_endpoint_session : session :=
  mksession (Some scenario_bytes) "Date" "Amount" "Category"
    [mkdate 2024 1 1] ["Food"; "Rent"].

(** ** Notions used in the statements *)

Definition qsum (l : list Q) : Q := fold_right Qplus 0%Q l.

Fixpoint group_lookup (k : string) (g : grouped) : option Q :=
  match g with
  | [] => None
  | (k', q) :: g' => if String.eqb k k' then Some q else group_lookup k g'
  end.

(** Two entries of a grouping with the same key and equal sums. *)
Definition same_entry (a b : string * Q) : Prop :=
  fst a = fst b /\ (snd a == snd b)%Q.

(** [df.loc[r, c]]: the cell of row [r] under the column [c]. *)
Definition loc (df : DataFrame) (r : row) (c : string) : value :=
  match index_of c (columns df) with
  | Some p => cell_at p r
  | None => NaN
  end.

(** Text a cell of a decoded file can hold: never a missing-value
    marker. *)
Definition text_ok (v : value) : Prop :=
  match v with
  | Str s => is_na_text s = false
  | _ => True
  end.

(** The category of a source cell, as the specification words it: the
    text of the cell, "Uncategorized" when the cell is missing. *)
Definition category_of (R : Runtime) (v : value) : string :=
  match v with
  | NaN => "Uncategorized"
  | _ => astype_str R v
  end.

(** The rendering of timestamps and floats never yields a missing-value
    marker of [pd.read_csv] (in particular, never the empty text). *)
Definition renders_text (R : Runtime) : Prop :=
  (forall t, is_na_text (repr_ts R t) = false)
  /\ (forall q, is_na_text (repr_float R q) = false).

(** Every cell of the frame is missing, a timestamp, a number, or text
    that is not a missing-value marker. *)
Definition frame_ok (df : DataFrame) : Prop :=
  forall r, In r (rows df) -> Forall text_ok (cells r).

(** A third table: no date parses. *)
Definition undated_csv : csv :=
  mkcsv ["When"; "Paid"]
    [["soon"; "10"];
     ["later"; "20"]].

Definition undated_session : session :=
  mksession None "When" "Paid" "(none)"
    [mkdate 2024 1 1; mkdate 2024 12 31] ["Uncategorized"].

(** ** Further notions *)

(** [.unique()] on texts: the values in order of first appearance. *)
Fixpoint unique (l : list string) : list string :=
  match l with
  | [] => []
  | x :: t => x :: filter (fun y => negb (String.eqb y x)) (unique t)
  end.

Definition texts (col : list value) : list string :=
  flat_map (fun v => match v with Str s => [s] | _ => [] end) col.

(** Line 131: the options of the category multiselect, which are also
    its default selection. *)
Definition category_options (df : DataFrame) : option (list string) :=
  c <- getitem "_category" df ;;
  Some (unique (texts c)).

(** Keys in strictly ascending order. *)
Definition key_lt (a b : string * Q) : Prop :=
  String.compare (fst a) (fst b) = Lt.

(** The rows of a frame with the text [k] under the column [c]. *)
Definition rows_with (c k : string) (df : DataFrame) : list row :=
  filter (fun r => isin [k] (loc df r c)) (rows df).

(** The valid amounts of a list of rows. *)
Definition amounts_of (df : DataFrame) (rs : list row) : list Q :=
  numbers (map (fun r => loc df r "_amount") rs).

(** The valid amounts of a list of rows, row by row. *)
Fixpoint valid_amounts (df : DataFrame) (rs : list row) : list Q :=
  match rs with
  | [] => []
  | r :: rs' =>
      match loc df r "_amount" with
      | Num q => q :: valid_amounts df rs'
      | _ => valid_amounts df rs'
      end
  end.

(** The month text of a [_date] cell. *)
Definition month_of (v : value) : value :=
  match v with
  | Ts t => Str (period_month_str t)
  | _ => Str "NaT"
  end.

(** A cell of a datetime column: a timestamp or NaT. *)
Definition is_datetime (v : value) : Prop :=
  v = NaN \/ exists t, v = Ts t.

(** A cell of a float column: a number or NaN. *)
Definition is_float (v : value) : Prop :=
  v = NaN \/ exists q, v = Num q.

Definition derived_names : list string :=
  ["_date"; "_amount"; "_category"].

(** * Properties *)

(** ** Lists, rows and columns *)

Lemma index_of_lt (c : string) (cols : list string) (p : nat) :
  index_of c cols = Some p -> (p < List.length cols)%nat.
Proof.
  revert p; induction cols as [|c' cs IH]; simpl; intros p H; [discriminate|].
  destruct (String.eqb c c').
  - injection H as <-; lia.
  - destruct (index_of c cs) as [q|]; simpl in H; [|discriminate].
    injection H as <-. specialize (IH q eq_refl). lia.
Qed.

Lemma index_of_In (c : string) (cols : list string) :
  In c cols <-> exists p, index_of c cols = Some p.
Proof.
  induction cols as [|c' cs IH]; simpl.
  - split; [tauto | intros [p H]; discriminate].
  - destruct (String.eqb_spec c c') as [Heq|Hne].
    + split; [intros _; eauto | intros _; left; congruence].
    + rewrite IH. split.
      * intros [H|[p H]]; [congruence|]. rewrite H. simpl. eauto.
      * intros [p H]. right.
        destruct (index_of c cs); simpl in H; [eauto | discriminate].
Qed.

Lemma index_of_None (c : string) (cols : list string) :
  index_of c cols = None <-> ~ In c cols.
Proof.
  rewrite index_of_In. destruct (index_of c cols) as [p|]; split; intro H.
  - discriminate.
  - exfalso; eauto.
  - intros [p Hp]; discriminate.
  - reflexivity.
Qed.

Lemma index_of_app_old (c : string) (cols more : list string) (p : nat) :
  index_of c cols = Some p -> index_of c (cols ++ more) = Some p.
Proof.
  revert p; induction cols as [|c' cs IH]; simpl; intros p H; [discriminate|].
  destruct (String.eqb c c'); [exact H|].
  destruct (index_of c cs) as [q|]; simpl in H; [|discriminate].
  rewrite (IH q eq_refl). exact H.
Qed.

Lemma index_of_app_new (c : string) (cols : list string) :
  index_of c cols = None ->
  index_of c (cols ++ [c]) = Some (List.length cols).
Proof.
  induction cols as [|c' cs IH]; simpl; intros H.
  - now rewrite String.eqb_refl.
  - destruct (String.eqb c c'); [discriminate|].
    destruct (index_of c cs); simpl in H; [discriminate|].
    now rewrite IH.
Qed.

Lemma index_of_app_other (c c' : string) (cols : list string) :
  c' <> c -> index_of c' cols = None -> index_of c' (cols ++ [c]) = None.
Proof.
  intros Hne H. apply index_of_None. apply index_of_None in H.
  rewrite in_app_iff. simpl. intuition congruence.
Qed.

Lemma pad_length (w : nat) (l : list value) : List.length (pad w l) = w.
Proof.
  unfold pad. rewrite length_app, length_firstn, repeat_length. lia.
Qed.

Lemma nth_pad (w p : nat) (l : list value) :
  (p < w)%nat -> nth p (pad w l) NaN = nth p l NaN.
Proof.
  intros Hp. unfold pad.
  destruct (Nat.lt_ge_cases p (List.length l)) as [Hl|Hl].
  - rewrite app_nth1 by (rewrite length_firstn; lia).
    rewrite nth_firstn. apply Nat.ltb_lt in Hp. now rewrite Hp.
  - rewrite app_nth2 by (rewrite length_firstn; lia).
    rewrite (nth_overflow l) by lia. apply nth_repeat.
Qed.

Lemma nth_update_same (p : nat) (v : value) (l : list value) :
  (p < List.length l)%nat -> nth p (update p v l) NaN = v.
Proof.
  revert p; induction l as [|h t IH]; intros [|p]; simpl; intros H;
    try lia; auto. apply IH; lia.
Qed.

Lemma nth_update_other (p p' : nat) (v : value) (l : list value) :
  p' <> p -> nth p' (update p v l) NaN = nth p' l NaN.
Proof.
  revert p p'; induction l as [|h t IH]; intros [|p] [|p']; simpl;
    intros H; try congruence; auto.
Qed.

Lemma In_update (p : nat) (v x : value) (l : list value) :
  In x (update p v l) -> x = v \/ In x l.
Proof.
  revert p; induction l as [|h t IH]; intros [|p]; simpl; try tauto.
  - intuition.
  - intros [H|H]; [tauto|]. destruct (IH _ H); tauto.
Qed.

Lemma In_firstn (n : nat) (x : value) (l : list value) :
  In x (firstn n l) -> In x l.
Proof.
  revert l; induction n as [|n IH]; intros [|h t]; simpl; try tauto.
  intros [H|H]; auto.
Qed.

Lemma In_pad (w : nat) (x : value) (l : list value) :
  In x (pad w l) -> x = NaN \/ In x l.
Proof.
  unfold pad. rewrite in_app_iff. intros [H|H].
  - right. now apply In_firstn in H.
  - left. now apply repeat_spec in H.
Qed.

Lemma assign_length f (rs : list row) (vals : list value) :
  List.length (assign f rs vals) = List.length rs.
Proof.
  revert vals; induction rs as [|r rs IH]; intros vals; simpl; auto.
Qed.

Lemma assign_labels f (rs : list row) (vals : list value) :
  map label (assign f rs vals) = map label rs.
Proof.
  revert vals; induction rs as [|r rs IH]; intros vals; simpl; auto.
  now rewrite IH.
Qed.

Lemma assign_cell f (p : nat) (rs : list row) (vals : list value) :
  (forall v cs, nth p (f v cs) NaN = v) ->
  List.length vals = List.length rs ->
  map (cell_at p) (assign f rs vals) = vals.
Proof.
  intros Hf. revert vals; induction rs as [|r rs IH]; intros [|v vals];
    simpl; intros Hlen; try discriminate; auto.
  unfold cell_at at 1; simpl. rewrite Hf. f_equal. apply IH. lia.
Qed.

Lemma assign_cell_other f (p : nat) (rs : list row) (vals : list value) :
  (forall v cs, nth p (f v cs) NaN = nth p cs NaN) ->
  map (cell_at p) (assign f rs vals) = map (cell_at p) rs.
Proof.
  intros Hf. revert vals; induction rs as [|r rs IH]; intros vals;
    simpl; auto.
  unfold cell_at at 1; simpl. rewrite Hf. f_equal. apply IH.
Qed.

Lemma setitem_columns (c c' : string) (vals : list value) (df : DataFrame) :
  In c' (columns (setitem c vals df)) <-> In c' (columns df) \/ c' = c.
Proof.
  unfold setitem. destruct (index_of c (columns df)) as [p|] eqn:E; simpl.
  - split; [tauto|]. intros [H| ->]; auto. apply index_of_In; eauto.
  - rewrite in_app_iff. simpl. intuition.
Qed.

Lemma setitem_rows_length (c : string) (vals : list value) (df : DataFrame) :
  List.length (rows (setitem c vals df)) = List.length (rows df).
Proof.
  unfold setitem. destruct (index_of c (columns df)); simpl;
    apply assign_length.
Qed.

Lemma setitem_labels (c : string) (vals : list value) (df : DataFrame) :
  map label (rows (setitem c vals df)) = map label (rows df).
Proof.
  unfold setitem. destruct (index_of c (columns df)); simpl;
    apply assign_labels.
Qed.

Lemma getitem_setitem_same (c : string) (vals : list value) (df : DataFrame) :
  List.length vals = List.length (rows df) ->
  getitem c (setitem c vals df) = Some vals.
Proof.
  intros Hlen. unfold getitem, setitem.
  destruct (index_of c (columns df)) as [p|] eqn:E; simpl.
  - rewrite E. simpl. f_equal. apply assign_cell; auto.
    intros v cs. apply nth_update_same. rewrite pad_length.
    now apply index_of_lt in E.
  - rewrite (index_of_app_new _ _ E). simpl. f_equal.
    apply assign_cell; auto.
    intros v cs. rewrite app_nth2 by (rewrite pad_length; lia).
    rewrite pad_length, Nat.sub_diag. reflexivity.
Qed.

Lemma getitem_setitem_other (c c' : string) (vals : list value)
    (df : DataFrame) :
  c' <> c -> getitem c' (setitem c vals df) = getitem c' df.
Proof.
  intros Hne. unfold getitem, setitem.
  destruct (index_of c (columns df)) as [p|] eqn:E; simpl.
  - destruct (index_of c' (columns df)) as [p'|] eqn:E'; simpl; auto.
    f_equal. apply assign_cell_other. intros v cs.
    assert (p' <> p).
    { intros ->. apply Hne.
      clear -E E'. revert p E E'.
      induction (columns df) as [|x xs IH]; simpl; intros p E E';
        [discriminate|].
      destruct (String.eqb_spec c x), (String.eqb_spec c' x); try congruence.
      - destruct (index_of c' xs); simpl in E'; congruence.
      - destruct (index_of c xs); simpl in E; congruence.
      - destruct (index_of c xs) as [q|] eqn:Eq; simpl in E; [|discriminate].
        destruct (index_of c' xs) as [q'|] eqn:Eq'; simpl in E';
          [|discriminate].
        apply (IH q); congruence. }
    rewrite nth_update_other by assumption.
    apply nth_pad. now apply index_of_lt in E'.
  - destruct (index_of c' (columns df)) as [p'|] eqn:E'; simpl.
    + rewrite (index_of_app_old _ _ [c] _ E'). simpl. f_equal.
      apply assign_cell_other. intros v cs.
      pose proof (index_of_lt _ _ _ E') as Hlt.
      rewrite app_nth1 by (rewrite pad_length; lia).
      now apply nth_pad.
    + now rewrite (index_of_app_other c c' _ Hne E').
Qed.

Lemma getitem_loc (c : string) (df : DataFrame) (col : list value) :
  getitem c df = Some col -> col = map (fun r => loc df r c) (rows df).
Proof.
  unfold getitem, loc. destruct (index_of c (columns df)); simpl;
    [|discriminate].
  now intros [= <-].
Qed.

Lemma getitem_In (c : string) (df : DataFrame) :
  In c (columns df) -> exists col, getitem c df = Some col.
Proof.
  intros H. apply index_of_In in H as [p Hp]. unfold getitem.
  rewrite Hp. simpl. eauto.
Qed.

Lemma getitem_Some_In (c : string) (df : DataFrame) (col : list value) :
  getitem c df = Some col -> In c (columns df).
Proof.
  unfold getitem. intros H. apply index_of_In.
  destruct (index_of c (columns df)); [eauto | discriminate].
Qed.

Lemma getitem_length (c : string) (df : DataFrame) (col : list value) :
  getitem c df = Some col -> List.length col = List.length (rows df).
Proof.
  intros H. apply getitem_loc in H. subst. apply length_map.
Qed.

(** ** Normalisation (lines 108-114) *)

(** The frames and columns [normalize] goes through. *)
Lemma normalize_inv (R : Runtime) (dc ac cc : string) (df n : DataFrame) :
  normalize R dc ac cc df = Some n ->
  exists d a cat,
    getitem dc df = Some d
    /\ getitem ac (setitem "_date" (to_datetime_col R d) df) = Some a
    /\ n = setitem "_category" cat
             (setitem "_amount" (to_amount_col R a)
                (setitem "_date" (to_datetime_col R d) df))
    /\ List.length cat = List.length (rows df)
    /\ ((cc = "(none)"
         /\ cat = repeat (Str "Uncategorized") (List.length (rows df)))
        \/ (cc <> "(none)"
            /\ exists c,
                getitem cc (setitem "_amount" (to_amount_col R a)
                              (setitem "_date" (to_datetime_col R d) df))
                = Some c
                /\ cat = to_category_col R c)).
Proof.
  unfold normalize.
  destruct (getitem dc df) as [d|] eqn:Ed; [|discriminate].
  destruct (getitem ac _) as [a|] eqn:Ea; [|discriminate].
  destruct (String.eqb_spec cc "(none)") as [Hcc|Hcc]; simpl.
  - intros [= <-].
    exists d, a, (repeat (Str "Uncategorized") (List.length (rows df))).
    repeat split; auto.
    + unfold setitem_scalar. now rewrite !setitem_rows_length.
    + apply repeat_length.
  - destruct (getitem cc _) as [c|] eqn:Ec; [|discriminate].
    intros [= <-]. exists d, a, (to_category_col R c). repeat split; eauto.
    unfold to_category_col. rewrite length_map.
    apply getitem_length in Ec. now rewrite Ec, !setitem_rows_length.
Qed.

Lemma normalize_total (R : Runtime) (dc ac cc : string) (df : DataFrame) :
  In dc (columns df) -> In ac (columns df) ->
  cc = "(none)" \/ In cc (columns df) ->
  exists n, normalize R dc ac cc df = Some n.
Proof.
  intros Hd Ha Hc. unfold normalize.
  destruct (getitem_In _ _ Hd) as [d ->].
  destruct (getitem_In ac (setitem "_date" (to_datetime_col R d) df))
    as [a ->].
  { apply setitem_columns; auto. }
  destruct (String.eqb_spec cc "(none)") as [Hcc|Hcc]; simpl; eauto.
  destruct Hc as [Hc|Hc]; [contradiction|].
  destruct (getitem_In cc (setitem "_amount" (to_amount_col R a)
                             (setitem "_date" (to_datetime_col R d) df)))
    as [c ->]; eauto.
  apply setitem_columns. left. apply setitem_columns. auto.
Qed.

Lemma to_datetime_col_length (R : Runtime) (col : list value) :
  List.length (to_datetime_col R col) = List.length col.
Proof. apply length_map. Qed.

Lemma to_amount_col_length (R : Runtime) (col : list value) :
  List.length (to_amount_col R col) = List.length col.
Proof. apply length_map. Qed.

(** The three derived columns of a normalised frame. *)
Lemma normalize_columns (R : Runtime) (dc ac cc : string) (df n : DataFrame) :
  normalize R dc ac cc df = Some n ->
  exists d a cat,
    getitem dc df = Some d
    /\ getitem ac (setitem "_date" (to_datetime_col R d) df) = Some a
    /\ getitem "_date" n = Some (to_datetime_col R d)
    /\ getitem "_amount" n = Some (to_amount_col R a)
    /\ getitem "_category" n = Some cat
    /\ Forall (fun v => exists s, v = Str s) cat
    /\ List.length (rows n) = List.length (rows df)
    /\ map label (rows n) = map label (rows df).
Proof.
  intros H. destruct (normalize_inv _ _ _ _ _ _ H)
    as (d & a & cat & Ed & Ea & -> & Hlen & Hcat).
  pose proof (getitem_length _ _ _ Ed) as Ld.
  pose proof (getitem_length _ _ _ Ea) as La.
  rewrite setitem_rows_length in La.
  exists d, a, cat. repeat split; auto.
  - rewrite !getitem_setitem_other by discriminate.
    apply getitem_setitem_same. now rewrite to_datetime_col_length.
  - rewrite getitem_setitem_other by discriminate.
    apply getitem_setitem_same.
    now rewrite to_amount_col_length, setitem_rows_length.
  - apply getitem_setitem_same. now rewrite !setitem_rows_length.
  - destruct Hcat as [[_ ->]|[_ (c & _ & ->)]].
    + apply Forall_forall. intros v Hv. apply repeat_spec in Hv. eauto.
    + apply Forall_forall. intros v Hv. unfold to_category_col in Hv.
      apply in_map_iff in Hv as (x & <- & _). eauto.
  - now rewrite !setitem_rows_length.
  - now rewrite !setitem_labels.
Qed.

(** C3.  Normalisation keeps every row of the table: for columns picked
    in the select boxes it returns a frame with as many rows as the
    input, under the same labels and in the same order; the [_date] and
    [_amount] columns hold one cell per row, the parsed value or the
    missing marker where parsing failed. *)
Theorem normalize_keeps_every_row (R : Runtime) (dc ac cc : string)
    (df : DataFrame) :
  In dc (columns df) -> In ac (columns df) ->
  cc = "(none)" \/ In cc (columns df) ->
  exists n d a,
    normalize R dc ac cc df = Some n
    /\ List.length (rows n) = List.length (rows df)
    /\ map label (rows n) = map label (rows df)
    /\ getitem dc df = Some d
    /\ getitem "_date" n
       = Some (map (fun v => of_timestamp (to_datetime R d v)) d)
    /\ List.length a = List.length (rows df)
    /\ getitem "_amount" n
       = Some (map (fun v => of_number
                     (to_numeric R (remove_commas (astype_str R v)))) a).
Proof.
  intros Hd Ha Hc.
  destruct (normalize_total R _ _ _ _ Hd Ha Hc) as [n Hn].
  destruct (normalize_columns _ _ _ _ _ _ Hn)
    as (d & a & cat & Ed & Ea & Gd & Ga & _ & _ & Hlen & Hlab).
  exists n, d, a. repeat split; auto.
  apply getitem_length in Ea. now rewrite setitem_rows_length in Ea.
Qed.

Lemma normalize_keeps_every_row_witness :
  In "Date" (columns scenario_frame)
  /\ In "Amount" (columns scenario_frame)
  /\ ("Category" = "(none)" \/ In "Category" (columns scenario_frame))
  /\ exists n d a,
       normalize scenario_runtime "Date" "Amount" "Category" scenario_frame
       = Some n
       /\ List.length (rows n) = List.length (rows scenario_frame)
       /\ map label (rows n) = map label (rows scenario_frame)
       /\ getitem "Date" scenario_frame = Some d
       /\ getitem "_date" n
          = Some (map (fun v => of_timestamp
                         (to_datetime scenario_runtime d v)) d)
       /\ List.length a = List.length (rows scenario_frame)
       /\ getitem "_amount" n
          = Some (map (fun v => of_number
                         (to_numeric scenario_runtime
                            (remove_commas (astype_str scenario_runtime v))))
                    a).
Proof.
  assert (Hd : In "Date" (columns scenario_frame))
    by (vm_compute; intuition).
  assert (Ha : In "Amount" (columns scenario_frame))
    by (vm_compute; intuition).
  assert (Hc : "Category" = "(none)" \/ In "Category" (columns scenario_frame))
    by (right; vm_compute; intuition).
  split; [exact Hd|]. split; [exact Ha|]. split; [exact Hc|].
  exact (normalize_keeps_every_row scenario_runtime _ _ _ _ Hd Ha Hc).
Defined.

(** ** The filter (lines 134-136) *)

(** A datetime64 column is not compared with [datetime.date] bounds:
    the first comparison of [between] raises. *)
Lemma between_dates (col : list value) (a e : date) :
  between col (PyDate a) (PyDate e) = None.
Proof. reflexivity. Qed.

(** Against two timestamps [between] is the mask of the closed
    interval, false on NaT. *)
Lemma between_timestamps (col : list value) (lo hi : timestamp) :
  between col (PyTimestamp lo) (PyTimestamp hi)
  = Some (map (fun v => match v with
                        | Ts t => (lo <=? t) && (t <=? hi)
                        | _ => false
                        end) col).
Proof.
  unfold between. simpl. f_equal.
  induction col as [|v col IH]; simpl; [reflexivity|].
  now rewrite IH; destruct v.
Qed.

(** C2.  Line 135 compares the datetime64 column [_date] with the two
    [datetime.date] values of the range picker.  pandas refuses that
    comparison, so the filter raises on every frame, every range and
    every selection of categories: it returns no subsequence of its
    input and keeps no row. *)
Theorem filter_raises (start end_ : date) (cats : list string)
    (df : DataFrame) :
  apply_filters start end_ cats df = None.
Proof.
  unfold apply_filters. destruct (getitem "_date" df) as [d|]; [|reflexivity].
  now rewrite between_dates.
Qed.

(** Once a table is decoded the script ends at the empty-table check,
    at the range check, or with an exception: past the range check it
    gets to line 135 and no further. *)
Lemma dashboard_of_ends (R : Runtime) (s : session) (df : DataFrame) :
  dashboard_of R s df = Stop CouldNotRead
  \/ dashboard_of R s df = Stop SelectValidRange
  \/ dashboard_of R s df = Uncaught.
Proof.
  unfold dashboard_of.
  destruct (empty df); auto.
  destruct (normalize _ _ _ _ _) as [n|]; auto.
  destruct (default_range _ _); auto.
  destruct (negb _); auto.
  destruct (date_range s) as [|a [|e [|x l]]]; auto.
  unfold apply_filters.
  destruct (getitem "_date" n) as [d|]; [rewrite between_dates|]; auto.
Qed.

(** ** KPIs and grouped sums (lines 143-194) *)

Lemma dt_to_period_str_length (col ym : list value) :
  dt_to_period_str col = Some ym -> List.length ym = List.length col.
Proof.
  revert ym; induction col as [|v col IH]; simpl; intros ym H.
  - now injection H as <-.
  - destruct (dt_to_period_str col) as [rest|]; [|discriminate].
    specialize (IH rest eq_refl).
    destruct v; try discriminate; injection H as <-; simpl; lia.
Qed.

(** What [summarize] computes, read off its definition. *)
Lemma summarize_inv (R : Runtime) (f : DataFrame) (d : dashboard) :
  summarize R f = Some d ->
  exists amt keys dts ym,
    getitem "_amount" f = Some amt
    /\ getitem "_category" f = Some keys
    /\ getitem "_date" f = Some dts
    /\ dt_to_period_str dts = Some ym
    /\ total d = series_sum amt
    /\ avg d = series_mean amt
    /\ max_amt d = amount_max amt
    /\ tx_count d = List.length (rows f)
    /\ cat_sum d = groupby_sum keys amt
    /\ trend d = groupby_sum ym amt
    /\ table d = setitem "year_month" ym f
    /\ csv_data d = to_csv R (setitem "year_month" ym f).
Proof.
  unfold summarize.
  destruct (getitem "_amount" f) as [amt|] eqn:Ea; [|discriminate].
  destruct (getitem "_category" f) as [keys|] eqn:Ek; [|discriminate].
  destruct (getitem "_date" f) as [dts|] eqn:Ed; [|discriminate].
  destruct (dt_to_period_str dts) as [ym|] eqn:Ey; [|discriminate].
  rewrite getitem_setitem_same.
  2:{ apply dt_to_period_str_length in Ey. apply getitem_length in Ed.
      congruence. }
  rewrite getitem_setitem_other by discriminate. rewrite Ea.
  intros [= <-]. exists amt, keys, dts, ym. simpl. repeat split; auto.
Qed.



Lemma numbers_all_missing (col : list value) :
  Forall (fun v => v = NaN) col -> numbers col = [].
Proof.
  induction 1 as [|v col -> _ IH]; simpl; auto.
Qed.

(** C10.  When every row of a non-empty filtered frame has a missing
    amount, the total is exactly 0, the average and the maximum are NaN,
    and the count is still the number of filtered rows. *)
Theorem kpis_without_valid_amount (R : Runtime) (f : DataFrame)
    (d : dashboard) :
  summarize R f = Some d ->
  rows f <> [] ->
  (forall r, In r (rows f) -> loc f r "_amount" = NaN) ->
  total d = 0%Q /\ avg d = NaN /\ max_amt d = NaN
  /\ tx_count d = List.length (rows f) /\ (0 < tx_count d)%nat.
Proof.
  intros Hd Hne Hall.
  destruct (summarize_inv _ _ _ Hd)
    as (amt & _ & _ & _ & Ha & _ & _ & _ & -> & -> & -> & -> & _).
  apply getitem_loc in Ha.
  assert (Hnum : numbers amt = []).
  { apply numbers_all_missing. subst amt. apply Forall_forall.
    intros v Hv. apply in_map_iff in Hv as (r & <- & Hr). auto. }
  unfold series_sum, series_mean, amount_max. rewrite Hnum. simpl.
  repeat split; auto.
  destruct (rows f); [congruence | simpl; lia].
Qed.

Lemma kpis_without_valid_amount_witness :
  summarize scenario_runtime unparsed_filtered = Some unparsed_dashboard
  /\ rows unparsed_filtered <> []
  /\ (forall r, In r (rows unparsed_filtered) ->
                loc unparsed_filtered r "_amount" = NaN)
  /\ total unparsed_dashboard = 0%Q
  /\ avg unparsed_dashboard = NaN
  /\ max_amt unparsed_dashboard = NaN
  /\ tx_count unparsed_dashboard = 2%nat
  /\ (0 < tx_count unparsed_dashboard)%nat.
Proof.
  assert (Hd : summarize scenario_runtime unparsed_filtered
               = Some unparsed_dashboard)
    by (vm_compute; reflexivity).
  assert (Hne : rows unparsed_filtered <> []) by (vm_compute; discriminate).
  assert (Hall : forall r, In r (rows unparsed_filtered) ->
                           loc unparsed_filtered r "_amount" = NaN).
  { intros r Hr. vm_compute in Hr.
    destruct Hr as [<-|[<-|[]]]; reflexivity. }
  split; [exact Hd|]. split; [exact Hne|]. split; [exact Hall|].
  exact (kpis_without_valid_amount _ _ _ Hd Hne Hall).
Defined.

(** ** The default range of the date picker (lines 117-124) *)

Lemma timestamps_In (col : list value) (t : timestamp) :
  In t (timestamps col) <-> In (Ts t) col.
Proof.
  unfold timestamps. rewrite in_flat_map. split.
  - intros (v & Hv & Ht). destruct v; simpl in Ht; try tauto.
    destruct Ht as [<-|[]]. exact Hv.
  - intros H. exists (Ts t). simpl. auto.
Qed.

Lemma fold_min_spec (ts : list Z) (t : Z) :
  In (fold_left Z.min ts t) (t :: ts)
  /\ forall x, In x (t :: ts) -> fold_left Z.min ts t <= x.
Proof.
  revert t; induction ts as [|y ts IH]; intros t; simpl.
  - split; [auto | intros x [<-|[]]; lia].
  - destruct (IH (Z.min t y)) as [Hin Hle]. split.
    + destruct Hin as [Hin|Hin]; [|auto].
      rewrite <- Hin. destruct (Z.min_spec t y) as [[_ ->]|[_ ->]]; auto.
    + intros x Hx.
      assert (fold_left Z.min ts (Z.min t y) <= Z.min t y)
        by (apply Hle; simpl; auto).
      destruct Hx as [<-|[<-|Hx]]; [lia | lia |].
      apply Hle. simpl. auto.
Qed.

Lemma fold_max_spec (ts : list Z) (t : Z) :
  In (fold_left Z.max ts t) (t :: ts)
  /\ forall x, In x (t :: ts) -> x <= fold_left Z.max ts t.
Proof.
  revert t; induction ts as [|y ts IH]; intros t; simpl.
  - split; [auto | intros x [<-|[]]; lia].
  - destruct (IH (Z.max t y)) as [Hin Hle]. split.
    + destruct Hin as [Hin|Hin]; [|auto].
      rewrite <- Hin. destruct (Z.max_spec t y) as [[_ ->]|[_ ->]]; auto.
    + intros x Hx.
      assert (Z.max t y <= fold_left Z.max ts (Z.max t y))
        by (apply Hle; simpl; auto).
      destruct Hx as [<-|[<-|Hx]]; [lia | lia |].
      apply Hle. simpl. auto.
Qed.

(** C9.  On a frame with a [_date] column: when no row has a valid date
    the picker is offered January 1st of the current year through today;
    otherwise it is offered the least through the greatest valid date of
    the column. *)
Theorem default_range_spec (R : Runtime) (df : DataFrame) :
  In "_date" (columns df) ->
  ((forall r t, In r (rows df) -> loc df r "_date" <> Ts t) ->
   default_range R df
   = Some (OfCalendar (mkdate (year (today R)) 1 1), OfCalendar (today R)))
  /\ ((exists r t, In r (rows df) /\ loc df r "_date" = Ts t) ->
      exists lo hi,
        default_range R df = Some (OfColumn (Ts lo), OfColumn (Ts hi))
        /\ (exists r, In r (rows df) /\ loc df r "_date" = Ts lo)
        /\ (exists r, In r (rows df) /\ loc df r "_date" = Ts hi)
        /\ (forall r t, In r (rows df) -> loc df r "_date" = Ts t ->
                        lo <= t <= hi)).
Proof.
  intros Hcol. destruct (getitem_In _ _ Hcol) as [col Hget].
  unfold default_range. rewrite Hget.
  apply getitem_loc in Hget.
  assert (Hmem : forall t, In t (timestamps col) <->
                           exists r, In r (rows df) /\ loc df r "_date" = Ts t).
  { intros t. rewrite timestamps_In. subst col. rewrite in_map_iff.
    split; intros (r & H1 & H2); exists r; auto. }
  unfold series_min, series_max.
  destruct (timestamps col) as [|t0 ts] eqn:Ets; simpl.
  - split; [reflexivity|].
    intros (r & t & Hr & Ht). exfalso.
    apply (proj2 (Hmem t)). eauto.
  - split.
    + intros Hnone. exfalso.
      destruct (proj1 (Hmem t0)) as (r & Hr & Ht); [simpl; auto|].
      exact (Hnone r t0 Hr Ht).
    + intros _.
      destruct (fold_min_spec ts t0) as [Hmin_in Hmin_le].
      destruct (fold_max_spec ts t0) as [Hmax_in Hmax_le].
      exists (fold_left Z.min ts t0), (fold_left Z.max ts t0).
      split; [reflexivity|].
      split; [now apply Hmem|]. split; [now apply Hmem|].
      intros r t Hr Ht.
      assert (In t (t0 :: ts)) by (apply Hmem; eauto).
      split; [now apply Hmin_le | now apply Hmax_le].
Qed.

Lemma default_range_spec_witness :
  In "_date" (columns scenario_normalized)
  /\ ((forall r t, In r (rows scenario_normalized) ->
                   loc scenario_normalized r "_date" <> Ts t) ->
      default_range scenario_runtime scenario_normalized
      = Some (OfCalendar (mkdate (year (today scenario_runtime)) 1 1),
              OfCalendar (today scenario_runtime)))
  /\ ((exists r t, In r (rows scenario_normalized)
                   /\ loc scenario_normalized r "_date" = Ts t) ->
      exists lo hi,
        default_range scenario_runtime scenario_normalized
        = Some (OfColumn (Ts lo), OfColumn (Ts hi))
        /\ (exists r, In r (rows scenario_normalized)
                      /\ loc scenario_normalized r "_date" = Ts lo)
        /\ (exists r, In r (rows scenario_normalized)
                      /\ loc scenario_normalized r "_date" = Ts hi)
        /\ (forall r t, In r (rows scenario_normalized) ->
                        loc scenario_normalized r "_date" = Ts t ->
                        lo <= t <= hi)).
Proof.
  assert (Hd : In "_date" (columns scenario_normalized))
    by (vm_compute; intuition).
  split; [exact Hd|].
  exact (default_range_spec scenario_runtime _ Hd).
Defined.

(** ** Decoding (lines 74-83) *)

(** X19.  Wherever the handle of the uploaded file stands, and wherever
    a failed attempt leaves it, the two retries of [safe_read] read the
    whole buffer: only the first attempt depends on the position. *)
Lemma safe_read_rewinds (R : Runtime) (f : file) :
  safe_read R f
  = match tokenize R DefaultEncoding (skipn (pos f) (content f)) with
    | Some c => Some (frame_of_csv c)
    | None =>
        match tokenize R Utf8Sig (content f) with
        | Some c => Some (frame_of_csv c)
        | None => option_map frame_of_csv (tokenize R Latin1 (content f))
        end
    end.
Proof.
  unfold safe_read, read_csv, seek0. simpl.
  destruct (tokenize R DefaultEncoding _); simpl; [reflexivity|].
  destruct (tokenize R Utf8Sig _); reflexivity.
Qed.

(** A byte above 127 sends the example runtime to its last encoding. *)
Example safe_read_latin1 :
  safe_read scenario_runtime
    (mkfile (list_byte_of_string
               ("name,paid" ++ String "010"
                  (String "233" "ve,12") ++ String "010" "")%string) 0)
  = Some (mkframe ["name"; "paid"]
            [mkrow 0 [Str (String "233" "ve"); Str "12"]]).
Proof. vm_compute. reflexivity. Qed.

(** C6.  On a freshly uploaded buffer [safe_read] tries the default
    encoding, then UTF-8 with signature, then Latin-1, and returns the
    first parse that succeeds; it raises only when the parse fails under
    each of the three encodings. *)
Theorem safe_read_first_success (R : Runtime) (b : list Byte.byte) :
  safe_read R (mkfile b 0)
  = match tokenize R DefaultEncoding b with
    | Some c => Some (frame_of_csv c)
    | None =>
        match tokenize R Utf8Sig b with
        | Some c => Some (frame_of_csv c)
        | None => option_map frame_of_csv (tokenize R Latin1 b)
        end
    end
  /\ (safe_read R (mkfile b 0) = None <-> forall e, tokenize R e b = None).
Proof.
  unfold safe_read, read_csv, seek0. simpl.
  destruct (tokenize R DefaultEncoding b) as [c0|] eqn:E0; simpl.
  - split; [reflexivity|]. split; [discriminate|].
    intros H. specialize (H DefaultEncoding). congruence.
  - destruct (tokenize R Utf8Sig b) as [c1|] eqn:E1; simpl.
    + split; [reflexivity|]. split; [discriminate|].
      intros H. specialize (H Utf8Sig). congruence.
    + split; [reflexivity|].
      destruct (tokenize R Latin1 b) as [c2|] eqn:E2; simpl.
      * split; [discriminate|]. intros H. specialize (H Latin1). congruence.
      * split; [|reflexivity]. intros _ [| |]; assumption.
Qed.

(** ** Halting on a malformed range (lines 126-128) *)

(** C8.  When the range picker does not deliver exactly two dates, the
    run never reaches the filter: it does not load a dashboard and does
    not report an empty filter result; once the upload is decoded to a
    non-empty table and normalised, it stops with the invalid-range
    message. *)
Theorem invalid_date_range_halts (R : Runtime) (s : session) :
  List.length (date_range s) <> 2%nat ->
  (forall d, run R s <> Loaded d)
  /\ run R s <> Stop NoRecordsFound
  /\ (forall b df n,
        uploaded s = Some b ->
        safe_read R (mkfile b 0) = Some df ->
        empty df = false ->
        normalize R (date_col s) (amount_col s) (category_col s) df = Some n ->
        run R s = Stop SelectValidRange).
Proof.
  intros Hlen. apply Nat.eqb_neq in Hlen.
  assert (Hshape : forall df,
            dashboard_of R s df = Stop CouldNotRead
            \/ dashboard_of R s df = Uncaught
            \/ dashboard_of R s df = Stop SelectValidRange).
  { intros df. unfold dashboard_of. rewrite Hlen. simpl.
    destruct (empty df); auto.
    destruct (normalize _ _ _ _ _); auto.
    destruct (default_range _ _); auto. }
  split; [|split].
  - intros d. unfold run. destruct (uploaded s); [|discriminate].
    destruct (safe_read _ _) as [df|]; [|discriminate].
    destruct (Hshape df) as [H|[H|H]]; rewrite H; discriminate.
  - unfold run. destruct (uploaded s); [|discriminate].
    destruct (safe_read _ _) as [df|]; [|discriminate].
    destruct (Hshape df) as [H|[H|H]]; rewrite H; discriminate.
  - intros b df n Hup Hread Hempty Hnorm. unfold run.
    rewrite Hup, Hread. unfold dashboard_of. rewrite Hempty, Hnorm.
    destruct (normalize_columns _ _ _ _ _ _ Hnorm)
      as (dts & a & cat & _ & _ & Hdate & _).
    unfold default_range. rewrite Hdate, Hlen. simpl.
    destruct (isna _); reflexivity.
Qed.

Lemma invalid_date_range_halts_witness :
  List.length (date_range one_endpoint_session) <> 2%nat
  /\ run scenario_runtime one_endpoint_session = Stop SelectValidRange.
Proof.
  assert (Hlen : List.length (date_range one_endpoint_session) <> 2%nat)
    by (vm_compute; discriminate).
  split; [exact Hlen|].
  destruct (invalid_date_range_halts scenario_runtime _ Hlen) as (_ & _ & H).
  apply (H scenario_bytes scenario_frame scenario_normalized);
    vm_compute; reflexivity.
Defined.

(** ** The scenario of the specification *)

(** C1.  On the three rows of the scenario, with the range
    2024-01-01..2024-03-31 and the categories Food and Rent, the file is
    decoded and normalised, and the filter of line 135 then raises: the
    run ends with an uncaught exception and shows no count, no total and
    no grouping. *)
Theorem scenario_raises :
  safe_read scenario_runtime (mkfile scenario_bytes 0) = Some scenario_frame
  /\ normalize scenario_runtime "Date" "Amount" "Category" scenario_frame
     = Some scenario_normalized
  /\ apply_filters (mkdate 2024 1 1) (mkdate 2024 3 31) ["Food"; "Rent"]
       scenario_normalized = None
  /\ run scenario_runtime scenario_session = Uncaught.
Proof.
  repeat split; vm_compute; reflexivity.
Qed.

(** X22.  Lines 143-194 on the three rows of the scenario, the rows the
    filter is meant to keep: the count is 3, the total 150, the
    categories are grouped as Food: 100, Rent: 50, and the months as
    2024-01: 100, 2024-02: 0, 2024-03: 50.  The month of the row whose
    amount does not parse is a key of the monthly grouping, with the
    sum 0. *)
Theorem scenario_aggregates :
  map label (rows scenario_filtered) = [0; 1; 2]%nat
  /\ exists d,
       summarize scenario_runtime scenario_filtered = Some d
       /\ tx_count d = 3%nat
       /\ (total d == 150)%Q
       /\ Forall2 same_entry (cat_sum d) [("Food", 100%Q); ("Rent", 50%Q)]
       /\ Forall2 same_entry (trend d)
            [("2024-01", 100%Q); ("2024-02", 0%Q); ("2024-03", 50%Q)].
Proof.
  split; [reflexivity|].
  eexists. split; [vm_compute; reflexivity|]. simpl.
  split; [reflexivity|]. split; [reflexivity|].
  split; repeat constructor.
Qed.

(** ** Text that is not a missing-value marker *)

Lemma last_char_cons (c : ascii) (s : string) :
  s <> EmptyString -> last_char (String c s) = last_char s.
Proof. destruct s; [congruence | reflexivity]. Qed.

Lemma last_char_app (s s' : string) :
  s' <> EmptyString -> last_char (s ++ s')%string = last_char s'.
Proof.
  intros Hne. induction s as [|c s IH]; simpl; auto.
  destruct (s ++ s')%string eqn:E.
  - destruct s; simpl in E; [congruence | discriminate].
  - exact IH.
Qed.

Lemma append_assoc (a b c : string) :
  (a ++ b ++ c = (a ++ b) ++ c)%string.
Proof. induction a as [|x a IH]; simpl; congruence. Qed.

Lemma is_digit_digit (n : Z) : is_digit (digit n) = true.
Proof.
  unfold digit.
  destruct (n mod 10) as [|p|p]; try reflexivity;
    do 4 (try (destruct p as [p|p|]; try reflexivity)).
Qed.

(** No missing-value marker ends with a digit. *)
Lemma last_digit_not_na (s : string) (c : ascii) :
  last_char s = Some c -> is_digit c = true -> is_na_text s = false.
Proof.
  intros Hlast Hdig. unfold is_na_text, na_values.
  apply not_true_is_false. intros H.
  apply existsb_exists in H as (tok & Hin & Heq).
  apply String.eqb_eq in Heq. subst tok.
  simpl in Hin.
  repeat (destruct Hin as [<-|Hin];
          [simpl in Hlast; try discriminate;
           injection Hlast as <-; discriminate|]).
  exact Hin.
Qed.

Lemma two_digits_last (s : string) (n : Z) :
  last_char (s ++ two_digits n)%string = Some (digit n).
Proof. rewrite last_char_app by discriminate. reflexivity. Qed.

Lemma not_na_nonempty (s : string) : is_na_text s = false -> s <> "".
Proof. intros H ->. discriminate. Qed.

Lemma read_field_ok (s : string) : text_ok (read_field s).
Proof.
  unfold read_field. destruct (is_na_text s) eqn:E; simpl; auto.
Qed.

Lemma Forall_pad (P : value -> Prop) (w : nat) (l : list value) :
  P NaN -> Forall P l -> Forall P (pad w l).
Proof.
  intros HN Hl. apply Forall_forall. intros x Hx.
  apply In_pad in Hx as [->|Hx]; auto.
  rewrite Forall_forall in Hl. auto.
Qed.

Lemma number_rows_In (i w : nat) (recs : list (list string)) (r : row) :
  In r (number_rows i w recs) ->
  exists rec, In rec recs /\ cells r = pad w (map read_field rec).
Proof.
  revert i; induction recs as [|rec recs IH]; simpl; intros i H; [tauto|].
  destruct H as [<-|H]; simpl; eauto.
  destruct (IH _ H) as (rec' & Hin & Hc). eauto.
Qed.

Lemma frame_of_csv_ok (c : csv) : frame_ok (frame_of_csv c).
Proof.
  intros r Hr. apply number_rows_In in Hr as (rec & _ & ->).
  apply Forall_pad; [exact I|].
  apply Forall_forall. intros v Hv.
  apply in_map_iff in Hv as (s & <- & _). apply read_field_ok.
Qed.

Lemma assign_In f (rs : list row) (vals : list value) (r : row) :
  In r (assign f rs vals) ->
  exists r0 v,
    In r0 rs /\ (v = NaN \/ In v vals) /\ cells r = f v (cells r0).
Proof.
  revert vals; induction rs as [|r0 rs IH]; simpl; intros vals H; [tauto|].
  destruct H as [<-|H].
  - exists r0, (hd NaN vals). simpl. repeat split; auto.
    destruct vals; simpl; auto.
  - destruct (IH _ H) as (r1 & v & Hin & Hv & Hc).
    exists r1, v. repeat split; auto.
    destruct Hv as [->|Hv]; auto. right.
    destruct vals; simpl in *; auto.
Qed.

Lemma setitem_ok (c : string) (vals : list value) (df : DataFrame) :
  frame_ok df -> Forall text_ok vals -> frame_ok (setitem c vals df).
Proof.
  intros Hdf Hvals r Hr.
  assert (Hv : forall v, v = NaN \/ In v vals -> text_ok v).
  { intros v [->|Hv]; [exact I|]. rewrite Forall_forall in Hvals. auto. }
  unfold setitem in Hr.
  destruct (index_of c (columns df)) as [p|]; simpl in Hr;
    apply assign_In in Hr as (r0 & v & Hin & Hvv & ->).
  - apply Forall_forall. intros x Hx.
    apply In_update in Hx as [->|Hx]; [auto|].
    apply In_pad in Hx as [->|Hx]; [exact I|].
    specialize (Hdf _ Hin). rewrite Forall_forall in Hdf. auto.
  - apply Forall_app. split.
    + apply Forall_pad; [exact I | auto].
    + constructor; auto.
Qed.

Lemma getitem_ok (c : string) (df : DataFrame) (col : list value) :
  frame_ok df -> getitem c df = Some col -> Forall text_ok col.
Proof.
  intros Hdf Hget. unfold getitem in Hget.
  destruct (index_of c (columns df)) as [p|]; [|discriminate].
  injection Hget as <-. apply Forall_forall. intros v Hv.
  apply in_map_iff in Hv as (r & <- & Hr). unfold cell_at.
  destruct (nth_in_or_default p (cells r) NaN) as [Hin| ->]; [|exact I].
  specialize (Hdf _ Hr). rewrite Forall_forall in Hdf. auto.
Qed.

Section Rendering.

Variable R : Runtime.
Hypothesis HR : renders_text R.

Lemma category_text_ok (v : value) :
  text_ok v ->
  text_ok (Str (astype_str R (fillna (Str "Uncategorized") v))).
Proof.
  destruct HR as [Hts Hfl]. intros Hv. destruct v; simpl; auto.
Qed.

Lemma normalize_ok (dc ac cc : string) (df n : DataFrame) :
  frame_ok df -> normalize R dc ac cc df = Some n -> frame_ok n.
Proof.
  intros Hdf Hn.
  destruct (normalize_inv _ _ _ _ _ _ Hn)
    as (d & a & cat & _ & _ & -> & _ & Hcat).
  assert (H2 : frame_ok (setitem "_amount" (to_amount_col R a)
                           (setitem "_date" (to_datetime_col R d) df))).
  { apply setitem_ok; [apply setitem_ok; auto|].
    - apply Forall_forall. intros v Hv.
      apply in_map_iff in Hv as (x & <- & _).
      destruct (to_datetime R d x); exact I.
    - apply Forall_forall. intros v Hv.
      apply in_map_iff in Hv as (x & <- & _).
      destruct (to_numeric R _); exact I. }
  apply setitem_ok; auto.
  destruct Hcat as [[_ ->]|[_ (c & Hc & ->)]].
  - apply Forall_forall. intros v Hv. apply repeat_spec in Hv.
    subst. reflexivity.
  - pose proof (getitem_ok _ _ _ H2 Hc) as Hok.
    apply Forall_forall. intros v Hv.
    apply in_map_iff in Hv as (x & <- & Hx).
    apply category_text_ok.
    rewrite Forall_forall in Hok. auto.
Qed.

End Rendering.

(** The example runtime renders text. *)

Lemma frac_digits_last (fuel : nat) (r den : Z) :
  exists c, last_char (Plain.frac_digits (S fuel) r den) = Some c
            /\ is_digit c = true.
Proof.
  revert r; induction fuel as [|fuel IH]; intros r.
  - exists (digit (10 * r / den)). split; [|apply is_digit_digit].
    simpl. destruct (_ =? 0); reflexivity.
  - change (Plain.frac_digits (S (S fuel)) r den)
      with (String (digit (10 * r / den))
              (if (10 * r) mod den =? 0 then EmptyString
               else Plain.frac_digits (S fuel) ((10 * r) mod den) den)).
    destruct (_ =? 0).
    + exists (digit (10 * r / den)). split; [reflexivity|apply is_digit_digit].
    + destruct (IH ((10 * r) mod den)) as (c & Hc & Hd).
      exists c. split; [exact Hc | exact Hd].
Qed.

Lemma plain_repr_float_text (q : Q) : is_na_text (Plain.repr_float q) = false.
Proof.
  destruct (frac_digits_last 16 (Z.abs (Qnum q) mod Zpos (Qden q))
              (Zpos (Qden q))) as (c & Hc & Hd).
  apply (last_digit_not_na _ c); auto.
  unfold Plain.repr_float. cbv zeta.
  change ("." ++ ?s)%string with (String "." s).
  rewrite append_assoc, last_char_app by discriminate.
  exact Hc.
Qed.

Lemma plain_repr_ts_text (t : timestamp) : is_na_text (Plain.repr_ts t) = false.
Proof.
  unfold Plain.repr_ts. cbv zeta. destruct (_ =? 0).
  - apply (last_digit_not_na _ (digit (day (date_of t))));
      [|apply is_digit_digit].
    unfold Plain.iso_date. rewrite last_char_app by discriminate.
    reflexivity.
  - apply (last_digit_not_na _
             (digit ((t mod ns_per_day / 1000000000) mod 60)));
      [|apply is_digit_digit].
    rewrite last_char_app by discriminate. reflexivity.
Qed.

Lemma scenario_runtime_renders_text : renders_text scenario_runtime.
Proof.
  split; [exact plain_repr_ts_text | exact plain_repr_float_text].
Qed.

(** ** Categories (lines 111-114) *)

(** An empty field of the file is a missing cell, and so is a field
    that a short record does not have. *)
Lemma empty_field_is_missing : read_field "" = NaN.
Proof. reflexivity. Qed.

Lemma absent_field_is_missing (w p : nat) (rec : list string) :
  (List.length rec <= p)%nat ->
  nth p (pad w (map read_field rec)) NaN = NaN.
Proof.
  intros Hp. destruct (Nat.lt_ge_cases p w) as [Hw|Hw].
  - rewrite nth_pad by exact Hw. apply nth_overflow. now rewrite length_map.
  - apply nth_overflow. now rewrite pad_length.
Qed.

(** C5.  On a decoded table, every row of the normalised frame has a
    category that is non-empty text; it is "Uncategorized" on every row
    when the category selection is "(none)", and otherwise it is the
    text of the source cell, with "Uncategorized" in place of a missing
    (empty or absent) cell.  The source cell is the cell of the selected
    column as the frame holds it, which is the cell of the file unless
    the selected column has the name of a derived column. *)
Theorem category_never_empty (R : Runtime) (c : csv) (dc ac cc : string)
    (n : DataFrame) :
  renders_text R ->
  normalize R dc ac cc (frame_of_csv c) = Some n ->
  (forall r, In r (rows n) ->
     exists s,
       loc n r "_category" = Str s
       /\ s <> ""
       /\ (cc = "(none)" -> s = "Uncategorized")
       /\ (cc <> "(none)" -> cc <> "_category" ->
           s = category_of R (loc n r cc)))
  /\ (cc <> "(none)" -> cc <> "_date" -> cc <> "_amount" ->
      exists src,
        getitem cc (frame_of_csv c) = Some src
        /\ getitem "_category" n
           = Some (map (fun v => Str (category_of R v)) src)).
Proof.
  intros HR Hn.
  pose proof (normalize_ok R HR _ _ _ _ _ (frame_of_csv_ok c) Hn) as Hok.
  destruct (normalize_columns _ _ _ _ _ _ Hn)
    as (d0 & a0 & cat0 & _ & _ & _ & _ & Hget & Hstr & _).
  pose proof (getitem_ok _ _ _ Hok Hget) as Htext.
  pose proof (getitem_loc _ _ _ Hget) as Hcat0.
  destruct (normalize_inv _ _ _ _ _ _ Hn)
    as (d & a & cat & _ & _ & Heq & Hlen & Hcat).
  assert (Hget' : getitem "_category" n = Some cat).
  { rewrite Heq. apply getitem_setitem_same.
    now rewrite !setitem_rows_length. }
  rewrite Hget in Hget'. injection Hget' as <-.
  assert (Hfill : forall v,
             astype_str R (fillna (Str "Uncategorized") v) = category_of R v)
    by (intros []; reflexivity).
  split.
  - intros r Hr.
    assert (Hin : In (loc n r "_category") cat0).
    { rewrite Hcat0. apply in_map_iff. eauto. }
    rewrite Forall_forall in Hstr, Htext.
    destruct (Hstr _ Hin) as [s Hs]. specialize (Htext _ Hin).
    rewrite Hs in Htext. simpl in Htext.
    exists s. split; [exact Hs|]. split; [now apply not_na_nonempty|].
    split.
    + intros Hnone. destruct Hcat as [[_ Hrep]|[Hne _]]; [|contradiction].
      rewrite Hrep in Hin. apply repeat_spec in Hin. congruence.
    + intros Hne Hother.
      destruct Hcat as [[Hnone _]|[_ (src & Hsrc & Hmap)]]; [contradiction|].
      assert (Hsrc' : getitem cc n = Some src).
      { rewrite Heq, getitem_setitem_other by exact Hother. exact Hsrc. }
      apply getitem_loc in Hsrc'.
      rewrite Hcat0, Hsrc' in Hmap. unfold to_category_col in Hmap.
      rewrite map_map in Hmap.
      assert (Hrow := Hmap). rewrite map_ext_in_iff in Hrow.
      specialize (Hrow r Hr). simpl in Hrow.
      rewrite Hs, Hfill in Hrow. now injection Hrow.
  - intros Hne Hnd Hna.
    destruct Hcat as [[Hnone _]|[_ (src & Hsrc & Hmap)]]; [contradiction|].
    rewrite !getitem_setitem_other in Hsrc by assumption.
    exists src. split; [exact Hsrc|].
    rewrite Hget, Hmap. unfold to_category_col. f_equal.
    apply map_ext. intros v. now rewrite Hfill.
Qed.

Lemma category_never_empty_witness :
  renders_text scenario_runtime
  /\ normalize scenario_runtime "When" "Paid" "What"
       (frame_of_csv unparsed_csv) = Some unparsed_normalized
  /\ getitem "_category" unparsed_normalized
     = Some [Str "Food"; Str "Rent"; Str "Uncategorized"]
  /\ (forall r, In r (rows unparsed_normalized) ->
        exists s,
          loc unparsed_normalized r "_category" = Str s
          /\ s <> ""
          /\ ("What" = "(none)" -> s = "Uncategorized")
          /\ ("What" <> "(none)" -> "What" <> "_category" ->
              s = category_of scenario_runtime
                    (loc unparsed_normalized r "What"))).
Proof.
  assert (Hn : normalize scenario_runtime "When" "Paid" "What"
                 (frame_of_csv unparsed_csv) = Some unparsed_normalized)
    by (vm_compute; reflexivity).
  split; [exact scenario_runtime_renders_text|]. split; [exact Hn|].
  split; [vm_compute; reflexivity|].
  exact (proj1 (category_never_empty scenario_runtime unparsed_csv _ _ _ _
                  scenario_runtime_renders_text Hn)).
Defined.

(** ** Export (lines 193 and 204) *)

(** C7.  No run gets to the export of line 204: whatever is uploaded
    and picked, the run ends before a dashboard is loaded.  And the
    frame that line 204 writes is the filtered frame after line 193
    added the month column to it: for the rows of the scenario the
    header has the three columns of the file, [_date], [_amount],
    [_category] and a fourth derived column, [year_month]. *)
Theorem export_not_reached :
  (forall R s d, run R s <> Loaded d)
  /\ exists d,
       summarize scenario_runtime scenario_filtered = Some d
       /\ csv_data d = to_csv scenario_runtime (table d)
       /\ header (csv_data d)
          = ["Date"; "Amount"; "Category";
             "_date"; "_amount"; "_category"; "year_month"].
Proof.
  split.
  - intros R s d. unfold run.
    destruct (uploaded s); [|discriminate].
    destruct (safe_read _ _) as [df|]; [|discriminate].
    destruct (dashboard_of_ends R s df) as [H|[H|H]]; rewrite H; discriminate.
  - eexists. split; [vm_compute; reflexivity|]. simpl.
    split; reflexivity.
Qed.

(** * Further properties of the script *)

(** ** The run after decoding (lines 91-205) *)

Lemma default_range_total (R : Runtime) (df : DataFrame) :
  In "_date" (columns df) -> exists rg, default_range R df = Some rg.
Proof.
  intros H. unfold default_range. destruct (getitem_In _ _ H) as [d ->].
  destruct (isna _); eauto.
Qed.

Lemma normalize_has_derived (R : Runtime) (dc ac cc : string)
    (df n : DataFrame) :
  normalize R dc ac cc df = Some n ->
  In "_date" (columns n) /\ In "_amount" (columns n)
  /\ In "_category" (columns n).
Proof.
  intros H. destruct (normalize_columns _ _ _ _ _ _ H)
    as (d & a & cat & _ & _ & Hd & Ha & Hc & _).
  repeat split; eapply getitem_Some_In; eauto.
Qed.

(** X1.  Once the upload is decoded to a non-empty table, the columns
    are picked in the select boxes and the range has its two ends, the
    run gets to the filter of line 135 and ends there with an uncaught
    exception. *)
Theorem picked_range_raises (R : Runtime) (s : session) (df : DataFrame)
    (a e : date) :
  empty df = false ->
  In (date_col s) (columns df) ->
  In (amount_col s) (columns df) ->
  category_col s = "(none)" \/ In (category_col s) (columns df) ->
  date_range s = [a; e] ->
  exists n,
    normalize R (date_col s) (amount_col s) (category_col s) df = Some n
    /\ apply_filters a e (categories s) n = None
    /\ dashboard_of R s df = Uncaught.
Proof.
  intros He Hd Ha Hc Hr.
  destruct (normalize_total R _ _ _ _ Hd Ha Hc) as [n Hn].
  exists n. split; [exact Hn|].
  assert (Hf : apply_filters a e (categories s) n = None).
  { unfold apply_filters. destruct (getitem "_date" n); [|reflexivity].
    now rewrite between_dates. }
  split; [exact Hf|].
  unfold dashboard_of. rewrite He, Hn, Hr.
  destruct (normalize_has_derived _ _ _ _ _ _ Hn) as (Hnd & _).
  destruct (default_range_total R _ Hnd) as [rg ->]. simpl.
  now rewrite Hf.
Qed.

Lemma picked_range_raises_witness :
  empty (frame_of_csv undated_csv) = false
  /\ In (date_col undated_session) (columns (frame_of_csv undated_csv))
  /\ In (amount_col undated_session) (columns (frame_of_csv undated_csv))
  /\ date_range undated_session = [mkdate 2024 1 1; mkdate 2024 12 31]
  /\ exists n,
       normalize scenario_runtime (date_col undated_session)
         (amount_col undated_session) (category_col undated_session)
         (frame_of_csv undated_csv) = Some n
       /\ apply_filters (mkdate 2024 1 1) (mkdate 2024 12 31)
            (categories undated_session) n = None
       /\ dashboard_of scenario_runtime undated_session
            (frame_of_csv undated_csv) = Uncaught.
Proof.
  assert (He : empty (frame_of_csv undated_csv) = false) by reflexivity.
  assert (Hd : In (date_col undated_session)
                 (columns (frame_of_csv undated_csv)))
    by (vm_compute; intuition).
  assert (Ha : In (amount_col undated_session)
                 (columns (frame_of_csv undated_csv)))
    by (vm_compute; intuition).
  assert (Hr : date_range undated_session
               = [mkdate 2024 1 1; mkdate 2024 12 31]) by reflexivity.
  repeat (split; [assumption|]).
  exact (picked_range_raises scenario_runtime undated_session _ _ _
           He Hd Ha (or_introl eq_refl) Hr).
Defined.

(** X2.  Every run ends in one of four ways: with the request for a
    file, with the could-not-read message, with the invalid-range
    message, or with an uncaught exception.  The no-records warning of
    line 139 is never shown. *)
Theorem run_ends (R : Runtime) (s : session) :
  (run R s = Stop PleaseUpload
   \/ run R s = Stop CouldNotRead
   \/ run R s = Stop SelectValidRange
   \/ run R s = Uncaught)
  /\ run R s <> Stop NoRecordsFound.
Proof.
  unfold run. destruct (uploaded s); [|split; [auto | discriminate]].
  destruct (safe_read _ _) as [df|]; [|split; [auto | discriminate]].
  destruct (dashboard_of_ends R s df) as [H|[H|H]]; rewrite H;
    (split; [auto | discriminate]).
Qed.

(** ** The derived columns (lines 108-114) *)

Lemma column_cell (c : string) (df : DataFrame) (col : list value) (r : row) :
  getitem c df = Some col -> In r (rows df) -> In (loc df r c) col.
Proof.
  intros H Hr. apply getitem_loc in H. subst col.
  apply in_map_iff. eauto.
Qed.

(** X3.  In a normalised frame every [_date] cell is a timestamp or
    NaT, every [_amount] cell a number or NaN, and every [_category]
    cell text, whatever the cells of the picked columns hold. *)
Theorem derived_columns_typed (R : Runtime) (dc ac cc : string)
    (df n : DataFrame) :
  normalize R dc ac cc df = Some n ->
  forall r, In r (rows n) ->
    is_datetime (loc n r "_date")
    /\ is_float (loc n r "_amount")
    /\ exists s, loc n r "_category" = Str s.
Proof.
  intros Hn r Hr.
  destruct (normalize_columns _ _ _ _ _ _ Hn)
    as (d & a & cat & _ & _ & Hd & Ha & Hc & Hstr & _).
  split; [|split].
  - pose proof (column_cell _ _ _ _ Hd Hr) as H.
    unfold to_datetime_col in H. apply in_map_iff in H as (v & <- & _).
    destruct (to_datetime R d v); [right; eexists | left]; reflexivity.
  - pose proof (column_cell _ _ _ _ Ha Hr) as H.
    unfold to_amount_col in H. apply in_map_iff in H as (v & <- & _).
    destruct (to_numeric R _); [right; eexists | left]; reflexivity.
  - rewrite Forall_forall in Hstr. apply Hstr.
    eapply column_cell; eauto.
Qed.

Lemma derived_columns_typed_witness :
  normalize scenario_runtime "When" "Paid" "What" (frame_of_csv unparsed_csv)
  = Some unparsed_normalized
  /\ forall r, In r (rows unparsed_normalized) ->
       is_datetime (loc unparsed_normalized r "_date")
       /\ is_float (loc unparsed_normalized r "_amount")
       /\ exists s, loc unparsed_normalized r "_category" = Str s.
Proof.
  assert (Hn : normalize scenario_runtime "When" "Paid" "What"
                 (frame_of_csv unparsed_csv) = Some unparsed_normalized)
    by (vm_compute; reflexivity).
  split; [exact Hn|].
  exact (derived_columns_typed scenario_runtime _ _ _ _ _ Hn).
Defined.

Lemma setitem_columns_app (c : string) (vals : list value) (df : DataFrame) :
  columns (setitem c vals df)
  = columns df
      ++ match index_of c (columns df) with Some _ => [] | None => [c] end.
Proof.
  unfold setitem. destruct (index_of c (columns df)); simpl; auto.
  now rewrite app_nil_r.
Qed.

Lemma index_of_existsb {A : Type} (c : string) (cols : list string)
    (x y : A) :
  match index_of c cols with Some _ => x | None => y end
  = if existsb (String.eqb c) cols then x else y.
Proof.
  induction cols as [|c' cs IH]; simpl; auto.
  destruct (String.eqb c c'); simpl; auto.
  destruct (index_of c cs); simpl in *; exact IH.
Qed.

(** X4.  Normalisation leaves the uploaded columns as they are: the
    header of the normalised frame is the uploaded header followed by
    the derived names it did not have, and every column under another
    name than the three derived ones holds the same cells as before. *)
Theorem normalize_keeps_source (R : Runtime) (dc ac cc : string)
    (df n : DataFrame) :
  normalize R dc ac cc df = Some n ->
  columns n
  = columns df
      ++ filter (fun x => negb (existsb (String.eqb x) (columns df)))
           derived_names
  /\ forall x, ~ In x derived_names -> getitem x n = getitem x df.
Proof.
  intros Hn. destruct (normalize_inv _ _ _ _ _ _ Hn)
    as (d & a & cat & _ & _ & -> & _). split.
  - rewrite !setitem_columns_app, <- !app_assoc. f_equal.
    rewrite !index_of_existsb, !existsb_app.
    unfold derived_names, filter.
    destruct (existsb (String.eqb "_date") (columns df));
      destruct (existsb (String.eqb "_amount") (columns df));
      destruct (existsb (String.eqb "_category") (columns df));
      reflexivity.
  - intros x Hx. simpl in Hx.
    rewrite !getitem_setitem_other; auto; intros ->; apply Hx; auto.
Qed.

Lemma normalize_keeps_source_witness :
  normalize scenario_runtime "Date" "Amount" "Category" scenario_frame
  = Some scenario_normalized
  /\ columns scenario_normalized
     = ["Date"; "Amount"; "Category"; "_date"; "_amount"; "_category"]
  /\ getitem "Amount" scenario_normalized = getitem "Amount" scenario_frame.
Proof.
  assert (Hn : normalize scenario_runtime "Date" "Amount" "Category"
                 scenario_frame = Some scenario_normalized)
    by (vm_compute; reflexivity).
  split; [exact Hn|].
  destruct (normalize_keeps_source scenario_runtime _ _ _ _ _ Hn) as [Hc Hg].
  split; [exact Hc|]. apply Hg.
  simpl. intros [H|[H|[H|[]]]]; discriminate.
Defined.

Lemma remove_commas_app (a b : string) :
  remove_commas (a ++ b)%string
  = (remove_commas a ++ remove_commas b)%string.
Proof.
  induction a as [|c a IH]; simpl; auto.
  destruct (Ascii.eqb c ","); simpl; now rewrite IH.
Qed.

(** X5.  A comma anywhere in an amount cell does not change the amount
    read from it: the cell with a comma between [a] and [b] gets the
    amount of the cell [a ++ b]. *)
Theorem comma_does_not_change_amount (R : Runtime) (a b : string) :
  to_amount_col R [Str (a ++ "," ++ b)%string]
  = to_amount_col R [Str (a ++ b)%string].
Proof.
  unfold to_amount_col. simpl.
  now rewrite !remove_commas_app.
Qed.

(** ** KPIs (lines 143-146) *)







(** ** Grouped sums (lines 187 and 194) *)

Lemma ascii_compare_lt_trans (a b c : ascii) :
  Ascii.compare a b = Lt -> Ascii.compare b c = Lt -> Ascii.compare a c = Lt.
Proof.
  unfold Ascii.compare. rewrite !N.compare_lt_iff. apply N.lt_trans.
Qed.

Lemma string_compare_refl (s : string) : String.compare s s = Eq.
Proof.
  pose proof (String.compare_antisym s s) as H.
  destruct (String.compare s s); simpl in H; congruence.
Qed.

Lemma string_compare_lt_trans (s1 s2 s3 : string) :
  String.compare s1 s2 = Lt -> String.compare s2 s3 = Lt ->
  String.compare s1 s3 = Lt.
Proof.
  revert s2 s3; induction s1 as [|a s1 IH]; intros [|b s2] [|c s3];
    simpl; try discriminate; auto.
  destruct (Ascii.compare a b) eqn:Eab; try discriminate.
  - apply Ascii.compare_eq_iff in Eab. subst b.
    destruct (Ascii.compare a c); try discriminate; auto. apply IH.
  - intros _. destruct (Ascii.compare b c) eqn:Ebc; try discriminate.
    + apply Ascii.compare_eq_iff in Ebc. subst c. now rewrite Eab.
    + now rewrite (ascii_compare_lt_trans _ _ _ Eab Ebc).
Qed.

Lemma group_add_In (k : string) (x : Q) (g : grouped) (kv : string * Q) :
  In kv (group_add k x g) ->
  fst kv = k \/ exists kv', In kv' g /\ fst kv' = fst kv.
Proof.
  induction g as [|[k' y] g IH]; simpl.
  - intros [<-|[]]. now left.
  - destruct (String.compare k k') eqn:E; simpl.
    + intros [<-|H]; right; [exists (k', y); simpl; auto | eauto].
    + intros [<-|[<-|H]]; [now left | right | right]; eauto.
    + intros [<-|H]; [right; eauto|].
      destruct (IH H) as [Hk|(kv' & Hin & Hk)]; [now left|].
      right. eauto.
Qed.

Lemma group_add_sorted (k : string) (x : Q) (g : grouped) :
  StronglySorted key_lt g -> StronglySorted key_lt (group_add k x g).
Proof.
  induction 1 as [|[k' y] g Hs IH Hall]; simpl.
  - repeat constructor.
  - destruct (String.compare k k') eqn:E.
    + constructor; [exact Hs | exact Hall].
    + constructor; [now constructor|].
      constructor; [exact E|].
      rewrite Forall_forall in *. intros kv Hkv. unfold key_lt in *.
      simpl in *. eapply string_compare_lt_trans; [exact E | auto].
    + constructor; [exact IH|].
      rewrite Forall_forall in *. intros kv Hkv. unfold key_lt in *.
      simpl. destruct (group_add_In _ _ _ _ Hkv) as [->|(kv' & Hin & <-)].
      * rewrite String.compare_antisym, E. reflexivity.
      * now apply Hall.
Qed.

Lemma group_step_sorted (g : grouped) (kv : value * value) :
  StronglySorted key_lt g -> StronglySorted key_lt (group_step g kv).
Proof.
  intros H. unfold group_step. destruct (fst kv); auto.
  now apply group_add_sorted.
Qed.

Lemma group_fold_sorted (kvs : list (value * value)) (g : grouped) :
  StronglySorted key_lt g ->
  StronglySorted key_lt (fold_left group_step kvs g).
Proof.
  revert g; induction kvs as [|kv kvs IH]; intros g H; simpl; auto.
  apply IH. now apply group_step_sorted.
Qed.

(** X9.  Both grouped sums list their keys in strictly ascending order,
    so no key occurs twice: each category and each month has one entry. *)
Theorem groupings_sorted (R : Runtime) (f : DataFrame) (d : dashboard) :
  summarize R f = Some d ->
  StronglySorted key_lt (cat_sum d) /\ StronglySorted key_lt (trend d).
Proof.
  intros Hd.
  destruct (summarize_inv _ _ _ Hd)
    as (amt & keys & dts & ym & _ & _ & _ & _ & _ & _ & _ & _ & -> & -> & _).
  split; apply group_fold_sorted; constructor.
Qed.

Lemma groupings_sorted_witness :
  summarize scenario_runtime scenario_filtered = Some scenario_dashboard
  /\ StronglySorted key_lt (cat_sum scenario_dashboard)
  /\ StronglySorted key_lt (trend scenario_dashboard).
Proof.
  assert (Hd : summarize scenario_runtime scenario_filtered
               = Some scenario_dashboard)
    by (vm_compute; reflexivity).
  split; [exact Hd|].
  exact (groupings_sorted _ _ _ Hd).
Defined.

Lemma group_lookup_add_other (k k1 : string) (x : Q) (g : grouped) :
  k1 <> k -> group_lookup k1 (group_add k x g) = group_lookup k1 g.
Proof.
  intros Hne. induction g as [|[k' y] g IH]; simpl.
  - apply String.eqb_neq in Hne. now rewrite Hne.
  - destruct (String.compare k k') eqn:E; simpl.
    + apply String.compare_eq_iff in E. subst k'.
      apply String.eqb_neq in Hne. now rewrite Hne.
    + apply String.eqb_neq in Hne. now rewrite Hne.
    + now rewrite IH.
Qed.

Lemma group_lookup_below (k : string) (g : grouped) :
  Forall (fun kv => String.compare k (fst kv) = Lt) g ->
  group_lookup k g = None.
Proof.
  induction 1 as [|[k' y] g Hlt _ IH]; simpl; auto.
  destruct (String.eqb_spec k k') as [->|_]; auto.
  simpl in Hlt. rewrite string_compare_refl in Hlt. discriminate.
Qed.

Lemma group_lookup_add_same (k : string) (x : Q) (g : grouped) :
  StronglySorted key_lt g ->
  group_lookup k (group_add k x g)
  = Some (match group_lookup k g with
          | Some y => (y + x)%Q
          | None => x
          end).
Proof.
  induction 1 as [|[k' y] g Hs IH Hall]; simpl.
  - now rewrite String.eqb_refl.
  - destruct (String.compare k k') eqn:E; simpl.
    + apply String.compare_eq_iff in E. subst k'.
      now rewrite String.eqb_refl.
    + rewrite String.eqb_refl.
      destruct (String.eqb_spec k k') as [->|_].
      { rewrite string_compare_refl in E. discriminate. }
      rewrite group_lookup_below; auto.
      rewrite Forall_forall in *. intros kv Hkv.
      eapply string_compare_lt_trans; [exact E|]. now apply Hall.
    + destruct (String.eqb_spec k k') as [->|_]; [|exact IH].
      rewrite string_compare_refl in E. discriminate.
Qed.

Lemma qsum_app (l1 l2 : list Q) : (qsum (l1 ++ l2) == qsum l1 + qsum l2)%Q.
Proof.
  induction l1 as [|x l1 IH]; simpl; [ring|]. rewrite IH. ring.
Qed.

Lemma numbers_app (l1 l2 : list value) :
  numbers (l1 ++ l2) = numbers l1 ++ numbers l2.
Proof. unfold numbers. apply flat_map_app. Qed.

(** The entry of a key in a grouped sum: absent when no pair has the
    key, and otherwise the sum of the valid amounts of its pairs. *)
Lemma group_fold_lookup (kvs : list (value * value)) (k : string) :
  match group_lookup k (fold_left group_step kvs []) with
  | None => filter (fun kv => isin [k] (fst kv)) kvs = []
  | Some q =>
      filter (fun kv => isin [k] (fst kv)) kvs <> []
      /\ (q == qsum (numbers (map snd
                       (filter (fun kv => isin [k] (fst kv)) kvs))))%Q
  end.
Proof.
  induction kvs as [|[key v] kvs IH] using rev_ind; [reflexivity|].
  rewrite fold_left_app. simpl.
  pose proof (group_fold_sorted kvs [] (SSorted_nil _)) as Hs.
  set (g := fold_left group_step kvs []) in *.
  rewrite filter_app, map_app, numbers_app. simpl.
  unfold group_step. simpl.
  destruct key as [|k'|t|q0]; simpl; rewrite ?app_nil_r; try exact IH.
  rewrite orb_false_r.
  destruct (String.eqb_spec k' k) as [->|Hne].
  - rewrite group_lookup_add_same by exact Hs. split.
    + intros E. apply app_eq_nil in E as [_ E]. discriminate.
    + rewrite qsum_app.
      destruct (group_lookup k g) as [y|].
      * destruct IH as [_ ->]. destruct v; simpl; ring.
      * rewrite IH. destruct v; simpl; ring.
  - rewrite group_lookup_add_other by congruence.
    simpl. rewrite !app_nil_r. exact IH.
Qed.

Lemma combine_map_rows (g h : row -> value) (rs : list row) :
  combine (map g rs) (map h rs) = map (fun r => (g r, h r)) rs.
Proof. induction rs as [|r rs IH]; simpl; congruence. Qed.

Lemma filter_map_comm {A B : Type} (p : B -> bool) (h : A -> B) (l : list A) :
  filter p (map h l) = map h (filter (fun x => p (h x)) l).
Proof.
  induction l as [|x l IH]; simpl; auto.
  destruct (p (h x)); simpl; now rewrite IH.
Qed.

(** A grouped sum over the column [c] of a frame, key by key. *)
Lemma grouping_of_column (t : DataFrame) (c : string)
    (keys amt : list value) (k : string) :
  getitem c t = Some keys ->
  getitem "_amount" t = Some amt ->
  match group_lookup k (groupby_sum keys amt) with
  | None => rows_with c k t = []
  | Some q =>
      rows_with c k t <> []
      /\ (q == qsum (amounts_of t (rows_with c k t)))%Q
  end.
Proof.
  intros Hk Ha. apply getitem_loc in Hk, Ha. subst keys amt.
  unfold groupby_sum. rewrite combine_map_rows.
  pose proof (group_fold_lookup
                (map (fun r => (loc t r c, loc t r "_amount")) (rows t)) k)
    as H.
  rewrite filter_map_comm, map_map in H. simpl in H.
  unfold rows_with, amounts_of.
  destruct (group_lookup k _) as [q|].
  - destruct H as [Hne Hq]. split; [|exact Hq].
    intros E. apply Hne. now rewrite E.
  - now apply map_eq_nil in H.
Qed.

(** X10.  The category grouping has an entry for a category exactly
    when some filtered row has it, and the entry is the sum of the valid
    amounts of the filtered rows of that category. *)
Theorem cat_sum_by_category (R : Runtime) (f : DataFrame) (d : dashboard)
    (k : string) :
  summarize R f = Some d ->
  match group_lookup k (cat_sum d) with
  | None => rows_with "_category" k f = []
  | Some q =>
      rows_with "_category" k f <> []
      /\ (q == qsum (amounts_of f (rows_with "_category" k f)))%Q
  end.
Proof.
  intros Hd.
  destruct (summarize_inv _ _ _ Hd)
    as (amt & keys & dts & ym & Ha & Hk & _ & _ & _ & _ & _ & _ & -> & _).
  now apply grouping_of_column.
Qed.

Lemma cat_sum_by_category_witness :
  summarize scenario_runtime scenario_filtered = Some scenario_dashboard
  /\ match group_lookup "Food" (cat_sum scenario_dashboard) with
     | None => rows_with "_category" "Food" scenario_filtered = []
     | Some q =>
         rows_with "_category" "Food" scenario_filtered <> []
         /\ (q == qsum (amounts_of scenario_filtered
                          (rows_with "_category" "Food" scenario_filtered)))%Q
     end.
Proof.
  assert (Hd : summarize scenario_runtime scenario_filtered
               = Some scenario_dashboard)
    by (vm_compute; reflexivity).
  split; [exact Hd|].
  exact (cat_sum_by_category _ _ _ "Food" Hd).
Defined.

(** X11.  The monthly grouping has an entry for a month exactly when
    some row of the table shown has it under [year_month], and the entry
    is the sum of the valid amounts of the rows of that month. *)
Theorem trend_by_month (R : Runtime) (f : DataFrame) (d : dashboard)
    (k : string) :
  summarize R f = Some d ->
  match group_lookup k (trend d) with
  | None => rows_with "year_month" k (table d) = []
  | Some q =>
      rows_with "year_month" k (table d) <> []
      /\ (q == qsum (amounts_of (table d)
                       (rows_with "year_month" k (table d))))%Q
  end.
Proof.
  intros Hd.
  destruct (summarize_inv _ _ _ Hd)
    as (amt & keys & dts & ym & Ha & _ & Hdts & Hym & _ & _ & _ & _ & _
        & -> & -> & _).
  apply grouping_of_column.
  - apply getitem_setitem_same.
    apply dt_to_period_str_length in Hym. apply getitem_length in Hdts.
    congruence.
  - rewrite getitem_setitem_other by discriminate. exact Ha.
Qed.

Lemma trend_by_month_witness :
  summarize scenario_runtime scenario_filtered = Some scenario_dashboard
  /\ match group_lookup "2024-02" (trend scenario_dashboard) with
     | None => rows_with "year_month" "2024-02" (table scenario_dashboard) = []
     | Some q =>
         rows_with "year_month" "2024-02" (table scenario_dashboard) <> []
         /\ (q == qsum (amounts_of (table scenario_dashboard)
                          (rows_with "year_month" "2024-02"
                             (table scenario_dashboard))))%Q
     end.
Proof.
  assert (Hd : summarize scenario_runtime scenario_filtered
               = Some scenario_dashboard)
    by (vm_compute; reflexivity).
  split; [exact Hd|].
  exact (trend_by_month _ _ _ "2024-02" Hd).
Defined.

Lemma group_lookup_In (k : string) (g : grouped) :
  In k (map fst g) -> exists q, group_lookup k g = Some q.
Proof.
  induction g as [|[k' y] g IH]; simpl; [tauto|].
  destruct (String.eqb_spec k k') as [->|Hne]; [eauto|].
  intros [H|H]; [congruence | auto].
Qed.

(** ** What the grouped sums add (lines 143, 187 and 194) *)

Lemma valid_amounts_amounts_of (t : DataFrame) (rs : list row) :
  valid_amounts t rs = amounts_of t rs.
Proof.
  unfold amounts_of, numbers.
  induction rs as [|r rs IH]; simpl; [reflexivity|].
  rewrite IH. now destruct (loc t r "_amount").
Qed.

Lemma valid_amounts_flat_map (t : DataFrame) (rs : list row) :
  valid_amounts t rs
  = flat_map (fun r => valid_amounts t [r]) rs.
Proof.
  induction rs as [|r rs IH]; simpl; [reflexivity|].
  rewrite IH. now destruct (loc t r "_amount").
Qed.

Lemma flat_map_flat_map {A B C : Type} (h : B -> list C) (F : A -> list B)
    (l : list A) :
  flat_map h (flat_map F l) = flat_map (fun a => flat_map h (F a)) l.
Proof.
  induction l as [|a l IH]; simpl; [reflexivity|].
  now rewrite flat_map_app, IH.
Qed.

Lemma key_lt_NoDup (g : grouped) :
  StronglySorted key_lt g -> NoDup (map fst g).
Proof.
  induction 1 as [|kv g Hs IH Hall]; simpl; constructor; auto.
  intros Hin. apply in_map_iff in Hin as (kv' & Heq & Hin').
  rewrite Forall_forall in Hall. specialize (Hall _ Hin').
  unfold key_lt in Hall. rewrite Heq, string_compare_refl in Hall.
  discriminate.
Qed.

Lemma group_lookup_Some_In (k : string) (g : grouped) (q : Q) :
  group_lookup k g = Some q -> In (k, q) g.
Proof.
  induction g as [|[k' y] g IH]; simpl; [discriminate|].
  destruct (String.eqb_spec k k') as [->|Hne].
  - intros [= ->]. now left.
  - auto.
Qed.

Lemma In_group_lookup (k : string) (g : grouped) (q : Q) :
  NoDup (map fst g) -> In (k, q) g -> group_lookup k g = Some q.
Proof.
  induction g as [|[k' y] g IH]; simpl; [tauto|].
  intros Hnd Hin. apply NoDup_cons_iff in Hnd as [Hnot Hnd].
  destruct Hin as [[= -> ->]|Hin].
  - now rewrite String.eqb_refl.
  - destruct (String.eqb_spec k k') as [->|Hne]; [|auto].
    exfalso. apply Hnot. apply in_map_iff. exists (k', q). auto.
Qed.

(** Rows that each pass the test of exactly one key are split by the
    keys: taken key by key they are the same rows, in another order. *)
Lemma partition_Permutation {A : Type} (p : string -> A -> bool)
    (ks : list string) (l : list A) :
  NoDup ks ->
  (forall x, In x l ->
     exists k0, In k0 ks /\ forall k, p k x = true <-> k = k0) ->
  Permutation l (flat_map (fun k => filter (p k) l) ks).
Proof.
  intros Hnd. induction l as [|x l IH]; intros Hkey.
  - clear. induction ks as [|k ks IHk]; simpl; [constructor | exact IHk].
  - assert (IH' : Permutation l (flat_map (fun k => filter (p k) l) ks))
      by (apply IH; intros y Hy; apply Hkey; now right).
    destruct (Hkey x (or_introl eq_refl)) as (k0 & Hk0 & Hp).
    apply in_split in Hk0 as (ks1 & ks2 & ->).
    apply NoDup_remove_2 in Hnd.
    assert (Hother : forall ks',
               (forall k, In k ks' -> In k (ks1 ++ ks2)) ->
               flat_map (fun k => filter (p k) (x :: l)) ks'
               = flat_map (fun k => filter (p k) l) ks').
    { intros ks' Hsub. induction ks' as [|k ks' IHk]; [reflexivity|].
      cbn [flat_map].
      rewrite IHk by (intros k' Hk'; apply Hsub; now right).
      f_equal. cbn [filter]. destruct (p k x) eqn:E; [|reflexivity].
      apply Hp in E. subst k. exfalso. apply Hnd. apply Hsub. now left. }
    rewrite flat_map_app in *. cbn [flat_map] in *.
    rewrite (Hother ks1) by (intros k Hk; apply in_or_app; now left).
    rewrite (Hother ks2) by (intros k Hk; apply in_or_app; now right).
    cbn [filter]. rewrite (proj2 (Hp k0) eq_refl). rewrite <- app_comm_cons.
    apply Permutation_cons_app. exact IH'.
Qed.

(** A grouped sum over the text column [c] of a frame: every entry is
    the sum of the valid amounts of the rows of its key, no key occurs
    twice, and the keys split the valid amounts of the frame. *)
Lemma grouping_partition (t : DataFrame) (c : string)
    (keys amt : list value) :
  getitem c t = Some keys ->
  getitem "_amount" t = Some amt ->
  (forall r, In r (rows t) -> exists s, loc t r c = Str s) ->
  (forall k q, In (k, q) (groupby_sum keys amt) ->
     (q == qsum (valid_amounts t (rows_with c k t)))%Q)
  /\ NoDup (map fst (groupby_sum keys amt))
  /\ Permutation (valid_amounts t (rows t))
       (flat_map (fun k => valid_amounts t (rows_with c k t))
          (map fst (groupby_sum keys amt))).
Proof.
  intros Hk Ha Htext.
  assert (Hnd : NoDup (map fst (groupby_sum keys amt))).
  { apply key_lt_NoDup. apply group_fold_sorted. constructor. }
  split; [|split; [exact Hnd|]].
  - intros k q Hin. apply In_group_lookup in Hin; [|exact Hnd].
    pose proof (grouping_of_column t c keys amt k Hk Ha) as H.
    rewrite Hin in H. rewrite valid_amounts_amounts_of. apply H.
  - assert (Hsplit : forall ks,
              flat_map (fun k => valid_amounts t (rows_with c k t)) ks
              = flat_map (fun r => valid_amounts t [r])
                  (flat_map (fun k => rows_with c k t) ks)).
    { intros ks. rewrite flat_map_flat_map. apply flat_map_ext.
      intros k. apply valid_amounts_flat_map. }
    rewrite Hsplit, (valid_amounts_flat_map t (rows t)).
    apply Permutation_flat_map. unfold rows_with.
    apply (partition_Permutation (fun k r => isin [k] (loc t r c)));
      [exact Hnd|].
    intros r Hr. destruct (Htext r Hr) as [s Hs]. exists s. split.
    + pose proof (grouping_of_column t c keys amt s Hk Ha) as H.
      destruct (group_lookup s (groupby_sum keys amt)) as [q|] eqn:E.
      * apply group_lookup_Some_In in E. apply in_map_iff.
        exists (s, q). auto.
      * exfalso.
        assert (Hin : In r (rows_with c s t)).
        { apply filter_In. split; [exact Hr|]. rewrite Hs. simpl.
          now rewrite String.eqb_refl. }
        rewrite H in Hin. exact Hin.
    + intros k. rewrite Hs. simpl. rewrite orb_false_r.
      rewrite String.eqb_eq. split; congruence.
Qed.




(** ** The monthly trend (lines 193-194) *)

Lemma assign_In_nth g (rs : list row) (vals : list value) (r : row) :
  In r (assign g rs vals) ->
  exists i r0,
    nth_error rs i = Some r0
    /\ label r = label r0
    /\ cells r = g (nth i vals NaN) (cells r0).
Proof.
  revert vals; induction rs as [|r0 rs IH]; simpl; intros vals H; [tauto|].
  destruct H as [<-|H].
  - exists O, r0. simpl. repeat split. now destruct vals.
  - destruct (IH _ H) as (i & r1 & Hi & Hl & Hc).
    exists (S i), r1. simpl. repeat split; auto.
    rewrite Hc. now destruct vals; simpl; [destruct i|].
Qed.

(** A row of a frame after [df[c] = vals]: the row of [df] at the same
    position, with the value of that position under [c]. *)
Lemma setitem_row (c : string) (vals : list value) (df : DataFrame) (r : row) :
  In r (rows (setitem c vals df)) ->
  exists i r0,
    nth_error (rows df) i = Some r0
    /\ label r = label r0
    /\ loc (setitem c vals df) r c = nth i vals NaN
    /\ forall c', c' <> c -> loc (setitem c vals df) r c' = loc df r0 c'.
Proof.
  unfold setitem, loc.
  destruct (index_of c (columns df)) as [p|] eqn:E; simpl; intros H;
    apply assign_In_nth in H as (i & r0 & Hi & Hl & Hc);
    exists i, r0; (split; [exact Hi|]); (split; [exact Hl|]).
  - rewrite E. unfold cell_at. rewrite Hc. split.
    + apply nth_update_same. rewrite pad_length.
      now apply index_of_lt in E.
    + intros c' Hne.
      destruct (index_of c' (columns df)) as [p'|] eqn:E'; [|reflexivity].
      assert (Hpp : p' <> p).
      { intros ->. apply Hne. clear -E E'. revert p E E'.
        induction (columns df) as [|x xs IH]; simpl; intros p E E';
          [discriminate|].
        destruct (String.eqb_spec c x), (String.eqb_spec c' x);
          try congruence.
        - destruct (index_of c' xs); simpl in E'; congruence.
        - destruct (index_of c xs); simpl in E; congruence.
        - destruct (index_of c xs) as [q|] eqn:Eq; simpl in E;
            [|discriminate].
          destruct (index_of c' xs) as [q'|] eqn:Eq'; simpl in E';
            [|discriminate].
          apply (IH q); congruence. }
      rewrite nth_update_other by exact Hpp.
      apply nth_pad. now apply index_of_lt in E'.
  - rewrite (index_of_app_new _ _ E). unfold cell_at. rewrite Hc. split.
    + rewrite app_nth2 by (rewrite pad_length; lia).
      now rewrite pad_length, Nat.sub_diag.
    + intros c' Hne.
      destruct (index_of c' (columns df)) as [p'|] eqn:E'.
      * rewrite (index_of_app_old _ _ [c] _ E').
        pose proof (index_of_lt _ _ _ E') as Hlt.
        rewrite app_nth1 by (rewrite pad_length; lia).
        now apply nth_pad.
      * now rewrite (index_of_app_other c c' _ Hne E').
Qed.

Lemma dt_to_period_str_map (col ym : list value) :
  dt_to_period_str col = Some ym -> ym = map month_of col.
Proof.
  revert ym; induction col as [|v col IH]; simpl; intros ym H.
  - now injection H as <-.
  - destruct (dt_to_period_str col) as [rest|]; [|discriminate].
    rewrite <- (IH rest eq_refl).
    destruct v; try discriminate; now injection H as <-.
Qed.

(** The frame shown and exported, row by row: the filtered frame with
    the month of each row under [year_month]. *)
Lemma table_row (R : Runtime) (f : DataFrame) (d : dashboard) (r : row) :
  summarize R f = Some d ->
  In r (rows (table d)) ->
  exists r0,
    In r0 (rows f)
    /\ label r = label r0
    /\ loc (table d) r "year_month" = month_of (loc f r0 "_date")
    /\ forall c, c <> "year_month" -> loc (table d) r c = loc f r0 c.
Proof.
  intros Hd Hin.
  destruct (summarize_inv _ _ _ Hd)
    as (amt & keys & dts & ym & _ & _ & Hdts & Hym & _ & _ & _ & _ & _ & _
        & Htab & _).
  rewrite Htab in *.
  destruct (setitem_row _ _ _ _ Hin) as (i & r0 & Hi & Hl & Hym_r & Hother).
  exists r0. split; [eapply nth_error_In; exact Hi|].
  split; [exact Hl|]. split; [|exact Hother].
  rewrite Hym_r. apply dt_to_period_str_map in Hym. subst ym.
  apply getitem_loc in Hdts. subst dts. rewrite map_map.
  apply nth_error_nth. now rewrite nth_error_map, Hi.
Qed.

(** X8.  The months split the rows of the table shown: every value of
    the monthly grouping adds the valid amounts of the rows of its
    month, no month occurs twice, and the valid amounts taken month by
    month are those of all rows in another order, each one counted
    once. *)
Theorem months_partition_amounts (R : Runtime) (f : DataFrame)
    (d : dashboard) :
  summarize R f = Some d ->
  (forall k q, In (k, q) (trend d) ->
     (q == qsum (valid_amounts (table d)
                   (rows_with "year_month" k (table d))))%Q)
  /\ NoDup (map fst (trend d))
  /\ Permutation (valid_amounts (table d) (rows (table d)))
       (flat_map (fun k => valid_amounts (table d)
                             (rows_with "year_month" k (table d)))
          (map fst (trend d))).
Proof.
  intros Hd.
  destruct (summarize_inv _ _ _ Hd)
    as (amt & keys & dts & ym & Ha & _ & Hdts & Hym & _ & _ & _ & _ & _
        & Htrend & Htab & _).
  rewrite Htrend. apply grouping_partition.
  - rewrite Htab. apply getitem_setitem_same.
    apply dt_to_period_str_length in Hym. apply getitem_length in Hdts.
    congruence.
  - rewrite Htab, getitem_setitem_other by discriminate. exact Ha.
  - intros r Hr. destruct (table_row _ _ _ _ Hd Hr) as (r0 & _ & _ & H & _).
    rewrite H. unfold month_of. destruct (loc f r0 "_date"); eauto.
Qed.

Lemma months_partition_amounts_witness :
  summarize scenario_runtime scenario_filtered = Some scenario_dashboard
  /\ map fst (trend scenario_dashboard) = ["2024-01"; "2024-02"; "2024-03"]
  /\ Permutation
       (valid_amounts (table scenario_dashboard)
          (rows (table scenario_dashboard)))
       (flat_map (fun k => valid_amounts (table scenario_dashboard)
                             (rows_with "year_month" k
                                (table scenario_dashboard)))
          (map fst (trend scenario_dashboard))).
Proof.
  assert (Hd : summarize scenario_runtime scenario_filtered
               = Some scenario_dashboard)
    by (vm_compute; reflexivity).
  split; [exact Hd|]. split; [vm_compute; reflexivity|].
  exact (proj2 (proj2 (months_partition_amounts _ _ _ Hd))).
Defined.

Lemma In_combine_l {A B : Type} (l : list A) (l' : list B) (x : A) :
  List.length l = List.length l' -> In x l -> exists y, In (x, y) (combine l l').
Proof.
  revert l'; induction l as [|a l IH]; intros [|b l'] Hlen Hin;
    simpl in *; try discriminate; try tauto.
  destruct Hin as [->|Hin]; [eauto|].
  destruct (IH l') as [y Hy]; [lia | exact Hin | eauto].
Qed.

(** The keys of a grouped sum are the texts of the key column. *)
Lemma groupby_sum_keys (keys vals : list value) (k : string) :
  List.length keys = List.length vals ->
  In k (map fst (groupby_sum keys vals)) <-> In (Str k) keys.
Proof.
  intros Hlen. unfold groupby_sum.
  pose proof (group_fold_lookup (combine keys vals) k) as H.
  assert (Hfilter : forall kv,
            In kv (filter (fun kv => isin [k] (fst kv)) (combine keys vals))
            <-> In kv (combine keys vals) /\ fst kv = Str k).
  { intros [key v]. rewrite filter_In. simpl.
    destruct key; simpl; try (intuition congruence).
    rewrite orb_false_r, String.eqb_eq. intuition congruence. }
  split.
  - intros Hin. destruct (group_lookup_In _ _ Hin) as [q Hq].
    rewrite Hq in H. destruct H as [Hne _].
    destruct (filter _ _) as [|[key v] rest] eqn:E; [congruence|].
    destruct (proj1 (Hfilter (key, v))) as [Hc Hkey];
      [first [now left | rewrite E; now left]|].
    simpl in Hkey. subst key. eapply in_combine_l; exact Hc.
  - intros Hin. destruct (In_combine_l _ _ _ Hlen Hin) as [v Hv].
    destruct (group_lookup k _) as [q|] eqn:E.
    + apply group_lookup_Some_In in E. apply in_map_iff. exists (k, q). auto.
    + exfalso. assert (Hf : In (Str k, v) []); [|exact Hf].
      rewrite <- H. apply Hfilter. auto.
Qed.

(** X12.  The keys of the monthly grouping are the months of the
    filtered rows: a text is a key exactly when it is the month of the
    [_date] of some filtered row, "NaT" standing for a missing date. *)
Theorem trend_keys_are_months (R : Runtime) (f : DataFrame) (d : dashboard)
    (k : string) :
  summarize R f = Some d ->
  In k (map fst (trend d)) <->
  exists r, In r (rows f) /\ month_of (loc f r "_date") = Str k.
Proof.
  intros Hd.
  destruct (summarize_inv _ _ _ Hd)
    as (amt & keys & dts & ym & Ha & _ & Hdts & Hym & _ & _ & _ & _ & _
        & -> & _).
  rewrite groupby_sum_keys.
  2:{ apply dt_to_period_str_length in Hym.
      apply getitem_length in Ha, Hdts. congruence. }
  apply dt_to_period_str_map in Hym. subst ym.
  apply getitem_loc in Hdts. subst dts. rewrite map_map, in_map_iff.
  split; intros (r & H1 & H2); exists r; auto.
Qed.

Lemma trend_keys_are_months_witness :
  summarize scenario_runtime unparsed_normalized = Some unparsed_all_dashboard
  /\ map fst (trend unparsed_all_dashboard) = ["2024-01"; "NaT"]
  /\ exists r, In r (rows unparsed_normalized)
               /\ month_of (loc unparsed_normalized r "_date") = Str "NaT".
Proof.
  assert (Hd : summarize scenario_runtime unparsed_normalized
               = Some unparsed_all_dashboard)
    by (vm_compute; reflexivity).
  assert (Hk : In "NaT" (map fst (trend unparsed_all_dashboard)))
    by (vm_compute; intuition).
  split; [exact Hd|]. split; [vm_compute; reflexivity|].
  exact (proj1 (trend_keys_are_months scenario_runtime unparsed_normalized
                  unparsed_all_dashboard "NaT" Hd) Hk).
Defined.

(** ** The category options (line 131) *)

Lemma unique_In (l : list string) (x : string) : In x (unique l) <-> In x l.
Proof.
  induction l as [|y l IH]; simpl; [tauto|].
  rewrite filter_In, IH, negb_true_iff, String.eqb_neq.
  destruct (String.eqb_spec x y) as [->|Hne]; intuition.
Qed.

Lemma unique_NoDup (l : list string) : NoDup (unique l).
Proof.
  induction l as [|y l IH]; simpl; constructor.
  - rewrite filter_In, negb_true_iff, String.eqb_neq. tauto.
  - now apply NoDup_filter.
Qed.

Lemma texts_In (col : list value) (s : string) :
  In s (texts col) <-> In (Str s) col.
Proof.
  unfold texts. rewrite in_flat_map. split.
  - intros (v & Hv & Hs). destruct v; simpl in Hs; try tauto.
    destruct Hs as [<-|[]]. exact Hv.
  - intros H. exists (Str s). simpl. auto.
Qed.

(** X15.  The category multiselect offers each category of the
    normalised table once: its options are the texts of the
    [_category] column without repetition. *)
Theorem category_options_spec (R : Runtime) (dc ac cc : string)
    (df n : DataFrame) :
  normalize R dc ac cc df = Some n ->
  exists opts,
    category_options n = Some opts
    /\ NoDup opts
    /\ forall s, In s opts <->
                 exists r, In r (rows n) /\ loc n r "_category" = Str s.
Proof.
  intros Hn.
  destruct (normalize_columns _ _ _ _ _ _ Hn)
    as (d & a & cat & _ & _ & _ & _ & Hc & _).
  unfold category_options. rewrite Hc.
  exists (unique (texts cat)). split; [reflexivity|].
  split; [apply unique_NoDup|].
  pose proof (getitem_loc _ _ _ Hc) as Hcat.
  intros s. rewrite unique_In, texts_In, Hcat, in_map_iff.
  split; intros (r & H1 & H2); exists r; auto.
Qed.

Lemma category_options_spec_witness :
  normalize scenario_runtime "When" "Paid" "What" (frame_of_csv unparsed_csv)
  = Some unparsed_normalized
  /\ category_options unparsed_normalized
     = Some ["Food"; "Rent"; "Uncategorized"]
  /\ exists opts,
       category_options unparsed_normalized = Some opts
       /\ NoDup opts
       /\ forall s, In s opts <->
                    exists r, In r (rows unparsed_normalized)
                              /\ loc unparsed_normalized r "_category"
                                 = Str s.
Proof.
  assert (Hn : normalize scenario_runtime "When" "Paid" "What"
                 (frame_of_csv unparsed_csv) = Some unparsed_normalized)
    by (vm_compute; reflexivity).
  split; [exact Hn|]. split; [vm_compute; reflexivity|].
  exact (category_options_spec scenario_runtime _ _ _ _ _ Hn).
Defined.

(** ** The table shown and exported (lines 193-205) *)

(** X16.  The table shown and exported has the filtered rows, one for
    one: every row of it is a filtered row under its own label, with
    the month of its own [_date] under [year_month] ("NaT" for a
    missing date) and every other column as the filtered frame has
    it. *)
Theorem table_rows (R : Runtime) (f : DataFrame) (d : dashboard) :
  summarize R f = Some d ->
  map label (rows (table d)) = map label (rows f)
  /\ forall r, In r (rows (table d)) ->
       exists r0,
         In r0 (rows f)
         /\ label r = label r0
         /\ loc (table d) r "year_month" = month_of (loc f r0 "_date")
         /\ forall c, c <> "year_month" -> loc (table d) r c = loc f r0 c.
Proof.
  intros Hd. split.
  - destruct (summarize_inv _ _ _ Hd)
      as (amt & keys & dts & ym & _ & _ & _ & _ & _ & _ & _ & _ & _ & _
          & -> & _).
    apply setitem_labels.
  - intros r Hr. exact (table_row _ _ _ _ Hd Hr).
Qed.

Lemma table_rows_witness :
  summarize scenario_runtime scenario_filtered = Some scenario_dashboard
  /\ getitem "year_month" (table scenario_dashboard)
     = Some [Str "2024-01"; Str "2024-02"; Str "2024-03"]
  /\ map label (rows (table scenario_dashboard))
     = map label (rows scenario_filtered).
Proof.
  assert (Hd : summarize scenario_runtime scenario_filtered
               = Some scenario_dashboard)
    by (vm_compute; reflexivity).
  split; [exact Hd|]. split; [vm_compute; reflexivity|].
  exact (proj1 (table_rows _ _ _ Hd)).
Defined.

(** X18.  The export has one record per counted row, every record has
    one field per column of the header, and the header is the header of
    the filtered frame followed by [year_month], unless the frame had
    that column already. *)
Theorem export_shape (R : Runtime) (f : DataFrame) (d : dashboard) :
  summarize R f = Some d ->
  List.length (records (csv_data d)) = tx_count d
  /\ (forall rec, In rec (records (csv_data d)) ->
                  List.length rec = List.length (header (csv_data d)))
  /\ header (csv_data d)
     = columns f
         ++ (if existsb (String.eqb "year_month") (columns f) then []
             else ["year_month"]).
Proof.
  intros Hd.
  destruct (summarize_inv _ _ _ Hd)
    as (amt & keys & dts & ym & _ & _ & _ & _ & _ & _ & _ & -> & _ & _
        & _ & ->).
  unfold to_csv. simpl. split; [|split].
  - now rewrite length_map, setitem_rows_length.
  - intros rec Hrec. apply in_map_iff in Hrec as (r & <- & _).
    now rewrite length_map, pad_length.
  - rewrite setitem_columns_app. f_equal. apply index_of_existsb.
Qed.

Lemma export_shape_witness :
  summarize scenario_runtime scenario_filtered = Some scenario_dashboard
  /\ List.length (records (csv_data scenario_dashboard)) = 3%nat
  /\ List.length (records (csv_data scenario_dashboard))
     = tx_count scenario_dashboard.
Proof.
  assert (Hd : summarize scenario_runtime scenario_filtered
               = Some scenario_dashboard)
    by (vm_compute; reflexivity).
  split; [exact Hd|]. split; [vm_compute; reflexivity|].
  exact (proj1 (export_shape _ _ _ Hd)).
Defined.

(** ** The upload (lines 72-93) *)

Lemma dashboard_of_after_empty_check (R : Runtime) (s : session)
    (df : DataFrame) :
  empty df = false ->
  dashboard_of R s df <> Stop CouldNotRead
  /\ dashboard_of R s df <> Stop PleaseUpload.
Proof.
  intros He. unfold dashboard_of. rewrite He.
  destruct (normalize _ _ _ _ _); [|split; discriminate].
  destruct (default_range _ _); [|split; discriminate].
  destruct (negb _); [split; discriminate|].
  destruct (date_range s) as [|a [|e [|x l]]]; try (split; discriminate).
  destruct (apply_filters _ _ _ _) as [f|]; [|split; discriminate].
  destruct (empty f); [split; discriminate|].
  destruct (summarize R f); split; discriminate.
Qed.

(** X20.  An upload that no encoding can parse is not reported with the
    could-not-read message: the exception of the last attempt leaves
    [safe_read] and ends the run. *)
Theorem undecodable_upload_raises (R : Runtime) (s : session)
    (b : list Byte.byte) :
  uploaded s = Some b ->
  (forall e, tokenize R e b = None) ->
  run R s = Uncaught.
Proof.
  intros Hb Hnone. unfold run, safe_read, read_csv, seek0. rewrite Hb.
  simpl. now rewrite !Hnone.
Qed.

Lemma undecodable_upload_raises_witness :
  uploaded (mksession (Some []) "Date" "Amount" "(none)" [] []) = Some []
  /\ (forall e, tokenize scenario_runtime e [] = None)
  /\ run scenario_runtime (mksession (Some []) "Date" "Amount" "(none)" [] [])
     = Uncaught.
Proof.
  assert (Hnone : forall e, tokenize scenario_runtime e [] = None)
    by (intros []; reflexivity).
  split; [reflexivity|]. split; [exact Hnone|].
  exact (undecodable_upload_raises scenario_runtime
           (mksession (Some []) "Date" "Amount" "(none)" [] []) []
           eq_refl Hnone).
Defined.

(** X21.  The run asks for a file exactly when nothing is uploaded, and
    shows the could-not-read message exactly when the upload decodes to
    a table without columns or without rows; no later stage ends with
    either message. *)
Theorem early_stops (R : Runtime) (s : session) :
  (run R s = Stop PleaseUpload <-> uploaded s = None)
  /\ (run R s = Stop CouldNotRead <->
      exists b df,
        uploaded s = Some b
        /\ safe_read R (mkfile b 0) = Some df
        /\ (columns df = [] \/ rows df = [])).
Proof.
  unfold run. destruct (uploaded s) as [b|] eqn:Hb.
  - destruct (safe_read R (mkfile b 0)) as [df|] eqn:Hdf.
    + destruct (empty df) eqn:He.
      * assert (Hrun : dashboard_of R s df = Stop CouldNotRead)
          by (unfold dashboard_of; now rewrite He).
        rewrite Hrun. split; [split; discriminate|].
        split; [|reflexivity]. intros _. exists b, df.
        repeat split; auto. unfold empty in He.
        destruct (columns df); [now left|].
        destruct (rows df); [now right | discriminate].
      * destruct (dashboard_of_after_empty_check R s df He) as [H1 H2].
        split; [split; [contradiction | discriminate]|].
        split; [contradiction|].
        intros (b' & df' & Hb' & Hdf' & Hempty).
        injection Hb' as <-. rewrite Hdf in Hdf'. injection Hdf' as <-.
        unfold empty in He.
        destruct Hempty as [E|E]; rewrite E in He;
          [discriminate | now destruct (columns df)].
    + split; [split; discriminate|]. split; [discriminate|].
      intros (b' & df' & Hb' & Hdf' & _).
      injection Hb' as <-. congruence.
  - split; [tauto|]. split; [discriminate|].
    intros (b' & df' & Hb' & _). discriminate.
Qed.
